(** * ReconX: WHOIS and DNS reconnaissance tool (recon_tool.py)

    A shallow embedding of [recon_tool.py] and the properties of its
    normalisation, gathering and export code.

    Python [str] values are modelled by [string]; a character is a code
    point below 256 (Latin-1), so that [lower], [strip] and the ordering
    used by [sorted] act on code points exactly as Python does.  The
    external collaborators (the WHOIS client, the DNS resolver, the
    clock and the file system) are an interface, [Collaborators], over
    an abstract world that they read and change. *)

From Stdlib Require Import List String Ascii Bool Arith NArith Lia Sorting.Sorted Permutation.
Import ListNotations.

Set Implicit Arguments.
Open Scope string_scope.

(* ================================================================== *)
(** * Python string primitives *)
(* ================================================================== *)

Module Str.

(** [c in chars] for a character and a string. *)
Fixpoint mem (c : ascii) (chars : string) : bool :=
  match chars with
  | EmptyString => false
  | String a r => Ascii.eqb c a || mem c r
  end.

Fixpoint rev_onto (s acc : string) : string :=
  match s with
  | EmptyString => acc
  | String a r => rev_onto r (String a acc)
  end.

Definition rev (s : string) : string := rev_onto s EmptyString.

(** [s.lstrip(chars)] *)
Fixpoint lstrip (chars s : string) : string :=
  match s with
  | EmptyString => EmptyString
  | String a r => if mem a chars then lstrip chars r else s
  end.

(** [s.rstrip(chars)] *)
Definition rstrip (chars s : string) : string :=
  rev (lstrip chars (rev s)).

(** [s.strip(chars)] removes the leading and the trailing characters
    that occur in [chars]. *)
Definition strip (chars s : string) : string :=
  rstrip chars (lstrip chars s).

(** Lower-casing of one code point below 256: the letters [A-Z] and
    the Latin-1 capitals U+00C0..U+00DE (U+00D7, the multiplication
    sign, has no case) move 32 places up; every other code point is
    its own lower case. *)
Definition lower_char (c : ascii) : ascii :=
  let n := nat_of_ascii c in
  if ((65 <=? n)%nat && (n <=? 90)%nat)
     || ((192 <=? n)%nat && (n <=? 222)%nat && negb (n =? 215)%nat)
  then ascii_of_nat (n + 32)
  else c.

(** [s.lower()] *)
Fixpoint lower (s : string) : string :=
  match s with
  | EmptyString => EmptyString
  | String a r => String (lower_char a) (lower r)
  end.

(** [s.startswith(p)] *)
Definition startswith (s p : string) : bool := String.prefix p s.

(** [sep.join(l)] *)
Definition join (sep : string) (l : list string) : string :=
  String.concat sep l.

(** [s[:n]] *)
Definition take (n : nat) (s : string) : string := String.substring 0 n s.

(** Truth value of a [str]: the empty string is falsy. *)
Definition truthy (s : string) : bool :=
  match s with EmptyString => false | _ => true end.

(** [s1 <= s2], the lexicographic order on code points. *)
Definition le (s1 s2 : string) : Prop := String.leb s1 s2 = true.

Fixpoint insert_sorted (x : string) (l : list string) : list string :=
  match l with
  | [] => [x]
  | y :: r => if String.leb x y then x :: l else y :: insert_sorted x r
  end.

(** [sorted(l)] for a list of [str]: ascending, stable. *)
Fixpoint sorted (l : list string) : list string :=
  match l with
  | [] => []
  | x :: r => insert_sorted x (sorted r)
  end.

(** The elements of [{e for e in l}], each once, as a list: the
    members of the set, in the order of their first occurrence. *)
Fixpoint set_of (l : list string) : list string :=
  match l with
  | [] => []
  | x :: r => x :: filter (fun y => negb (String.eqb y x)) (set_of r)
  end.

(** Decimal digits of [n], zero-padded on the left to [width]. *)
Fixpoint zpad (width n : nat) : string :=
  match width with
  | 0 => EmptyString
  | S w => zpad w (n / 10) ++ String (ascii_of_nat (48 + n mod 10)) EmptyString
  end.

End Str.

(* ================================================================== *)
(** * Exceptions and results *)
(* ================================================================== *)

(** The exception classes that the program names in an [except] clause,
    and the ones that lie outside them. *)
Inductive exc_class : Type :=
| BaseException      (* the root; also stands for KeyboardInterrupt, SystemExit *)
| Exception
| KeyError
| IndexError
| AttributeError
| OSError
| DNSException       (* dns.exception.DNSException *)
| NXDOMAIN           (* dns.resolver.NXDOMAIN *)
| NoAnswer.          (* dns.resolver.NoAnswer *)

Definition exc_class_eqb (a b : exc_class) : bool :=
  match a, b with
  | BaseException, BaseException | Exception, Exception
  | KeyError, KeyError | IndexError, IndexError
  | AttributeError, AttributeError | OSError, OSError
  | DNSException, DNSException | NXDOMAIN, NXDOMAIN
  | NoAnswer, NoAnswer => true
  | _, _ => false
  end.

(** The direct base class. *)
Definition base_of (c : exc_class) : option exc_class :=
  match c with
  | BaseException => None
  | Exception => Some BaseException
  | KeyError | IndexError | AttributeError | OSError | DNSException =>
      Some Exception
  | NXDOMAIN | NoAnswer => Some DNSException
  end.

(** [issubclass(c, k)], by walking up the bases (the hierarchy is three
    levels deep). *)
Fixpoint issubclass_upto (n : nat) (c k : exc_class) : bool :=
  exc_class_eqb c k ||
  match n with
  | 0 => false
  | S m => match base_of c with
           | Some b => issubclass_upto m b k
           | None => false
           end
  end.

Definition issubclass (c k : exc_class) : bool := issubclass_upto 3 c k.

(** A raised exception: its class, and [str(e)]. *)
Record exc : Type := mk_exc { exc_cls : exc_class; exc_str : string }.

Definition isinstance (e : exc) (k : exc_class) : bool :=
  issubclass (exc_cls e) k.

(** The outcome of a call: a value, or a raised exception. *)
Inductive result (A : Type) : Type :=
| Ret (a : A)
| Raise (e : exc).

Arguments Ret {A} a.
Arguments Raise {A} e.

(* ================================================================== *)
(** * Data model *)
(* ================================================================== *)

(** A [datetime.datetime] value. *)
Record datetime : Type := mk_datetime {
  year : nat; month : nat; day : nat;
  hour : nat; minute : nat; second : nat;
  microsecond : nat
}.

(** The number of digits of the decimal numeral of [n]. *)
Fixpoint width_upto (fuel n : nat) : nat :=
  match fuel with
  | 0 => 1
  | S f => if (n <? 10)%nat then 1 else S (width_upto f (n / 10))
  end.

Definition decimal_width (n : nat) : nat := width_upto n n.

(** The decimal numeral of [n], without leading zeros. *)
Definition decimal_numeral (n : nat) : string := Str.zpad (decimal_width n) n.

(** [d.strftime("%Y-%m-%d %H:%M:%S")].  The C library's [%Y] writes the
    year as a plain decimal number, so a year below 1000 has fewer than
    four digits (999-01-02 03:04:05); the other fields have two digits. *)
Definition strftime_ymd_hms (d : datetime) : string :=
  decimal_numeral (year d) ++ "-" ++ Str.zpad 2 (month d) ++ "-" ++ Str.zpad 2 (day d)
  ++ " " ++ Str.zpad 2 (hour d) ++ ":" ++ Str.zpad 2 (minute d) ++ ":"
  ++ Str.zpad 2 (second d).

(** [d.isoformat(sep)] of a naive datetime: the fraction is printed
    only when the microseconds are not zero. *)
Definition isoformat_sep (sep : string) (d : datetime) : string :=
  Str.zpad 4 (year d) ++ "-" ++ Str.zpad 2 (month d) ++ "-" ++ Str.zpad 2 (day d)
  ++ sep ++ Str.zpad 2 (hour d) ++ ":" ++ Str.zpad 2 (minute d) ++ ":"
  ++ Str.zpad 2 (second d)
  ++ (if (microsecond d =? 0)%nat then "" else "." ++ Str.zpad 6 (microsecond d)).

Definition isoformat (d : datetime) : string := isoformat_sep "T" d.

(** [str(d)] *)
Definition datetime_str (d : datetime) : string := isoformat_sep " " d.

(** What the WHOIS client hands back for a date attribute: a datetime,
    or the text it could not parse; one value, or a list or tuple of
    candidates; or [None]. *)
Inductive date_val : Type :=
| DateTime (d : datetime)
| DateText (s : string).

Inductive date_attr : Type :=
| DateNone
| DateOne (v : date_val)
| DateList (l : list date_val)
| DateTuple (l : list date_val).

(** A string-valued attribute ([name_servers], [status]): [None], one
    string, or a list, tuple or set of strings (a set is given by its
    iteration order). *)
Inductive strs_attr : Type :=
| StrsNone
| StrsOne (s : string)
| StrsList (l : list string)
| StrsTuple (l : list string)
| StrsSet (l : list string).

Inductive text_attr : Type :=
| TextNone
| TextStr (s : string).

(** The object returned by [whois.whois]: every attribute may be
    missing ([None] here), in which case [getattr] yields its default. *)
Record whois_entry : Type := mk_entry {
  e_registrar : option (option string);
  e_creation_date : option date_attr;
  e_expiration_date : option date_attr;
  e_updated_date : option date_attr;
  e_name_servers : option strs_attr;
  e_status : option strs_attr;
  e_text : option text_attr
}.

(** [getattr(w, name, default)] *)
Definition getattr {T : Type} (attribute : option T) (default : T) : T :=
  match attribute with
  | Some v => v
  | None => default
  end.

(** The success dict of [whois_lookup], a dict with eight fixed keys. *)
Record WhoisRecord : Type := mk_whois {
  domain_ : string;
  registrar : option string;
  creation_date : option string;
  expiration_date : option string;
  updated_date : option string;
  name_servers : list string;
  status : list string;
  raw : string
}.

(** The dict returned by [whois_lookup]: [{"error": ...}] or the
    eight-key dict. *)
Inductive whois_dict : Type :=
| WhoisError (error : string)
| WhoisData (r : WhoisRecord).

(** A dict with [str] keys, in insertion order. *)
Definition dict (V : Type) : Type := list (string * V).

Fixpoint dict_get {V : Type} (d : dict V) (k : string) : option V :=
  match d with
  | [] => None
  | (k', v) :: r => if String.eqb k' k then Some v else dict_get r k
  end.

(** [d[k] = v]: an existing key keeps its place, a new key goes last. *)
Fixpoint dict_set {V : Type} (d : dict V) (k : string) (v : V) : dict V :=
  match d with
  | [] => [(k, v)]
  | (k', v') :: r =>
      if String.eqb k' k then (k, v) :: r else (k', v') :: dict_set r k v
  end.

Definition dict_keys {V : Type} (d : dict V) : list string := map fst d.

(** The dict [out_data] assembled by [run] and handed to the exporters. *)
Record ReconResult : Type := mk_result {
  r_domain : string;
  r_whois : whois_dict;
  r_dns : dict (list string);
  r_timestamp_utc : string
}.

(** What [console.print] is given. *)
Inductive renderable : Type :=
| Panel (body title border_style : string)
| Table (title : string) (columns : list string) (rows : list (list string))
| Text (markup : string).

(* ================================================================== *)
(** * The collaborators and the program's monad *)
(* ================================================================== *)

(** The libraries the program calls, over the world they act on. *)
Class Collaborators : Type := {
  World : Type;
  (** [whois.whois(domain)] *)
  whois_whois : string -> World -> result whois_entry * World;
  (** [dns.resolver.resolve(domain, rtype)], each answer as its
      [to_text()] *)
  dns_resolver_resolve : string -> string -> World -> result (list string) * World;
  (** [datetime.utcnow()] *)
  datetime_utcnow : World -> datetime * World;
  (** [console.print(r)] *)
  console_print : renderable -> World -> World;
  (** [open(path, "w", ...)] followed by writing [text] and closing *)
  file_write : string -> string -> World -> result unit * World
}.

(** The calls made to the collaborators, as they happen. *)
Inductive call : Type :=
| CallWhois (domain : string)
| CallResolve (domain rtype : string)
| CallUtcnow
| CallPrint (r : renderable)
| CallWrite (path text : string).

Section Program.

Context {C : Collaborators}.

Record state : Type := mk_state {
  world : World;
  trace : list call
}.

(** A computation: it runs in a state and returns or raises, leaving
    a state behind either way. *)
Definition M (A : Type) : Type := state -> result A * state.

Definition ret {A : Type} (a : A) : M A := fun st => (Ret a, st).

Definition raise {A : Type} (e : exc) : M A := fun st => (Raise e, st).

Definition bind {A B : Type} (m : M A) (k : A -> M B) : M B :=
  fun st =>
    match m st with
    | (Ret a, st') => k a st'
    | (Raise e, st') => (Raise e, st')
    end.

(** One [except K as e: handler] clause. *)
Definition except_clause (A : Type) : Type := (exc_class * (exc -> M A))%type.

Fixpoint dispatch {A : Type} (clauses : list (except_clause A)) (e : exc) : M A :=
  match clauses with
  | [] => raise e
  | (k, handler) :: rest =>
      if isinstance e k then handler e else dispatch rest e
  end.

(** [try: body except K1 ...: ... except K2 ...: ...]: the first
    clause whose class the exception is an instance of handles it. *)
Definition try_except {A : Type} (body : M A) (clauses : list (except_clause A)) : M A :=
  fun st =>
    match body st with
    | (Ret a, st') => (Ret a, st')
    | (Raise e, st') => dispatch clauses e st'
    end.

(** [for x in l: acc = body(x, acc)] *)
Fixpoint for_each {A S : Type} (l : list A) (body : A -> S -> M S) (acc : S) : M S :=
  match l with
  | [] => ret acc
  | x :: r => bind (body x acc) (for_each r body)
  end.

Definition record_call (c : call) (st : state) (w : World) : state :=
  {| world := w; trace := (trace st ++ [c])%list |}.

Definition call_whois (domain : string) : M whois_entry :=
  fun st =>
    let (r, w) := whois_whois domain (world st) in
    (r, record_call (CallWhois domain) st w).

Definition call_resolve (domain rtype : string) : M (list string) :=
  fun st =>
    let (r, w) := dns_resolver_resolve domain rtype (world st) in
    (r, record_call (CallResolve domain rtype) st w).

Definition call_utcnow : M datetime :=
  fun st =>
    let (d, w) := datetime_utcnow (world st) in
    (Ret d, record_call CallUtcnow st w).

Definition call_print (r : renderable) : M unit :=
  fun st => (Ret tt, record_call (CallPrint r) st (console_print r (world st))).

Definition call_write (path text : string) : M unit :=
  fun st =>
    let (r, w) := file_write path text (world st) in
    (r, record_call (CallWrite path text) st w).

End Program.

Declare Scope py_scope.
Delimit Scope py_scope with py.
Notation "x <- m ;; k" := (bind m (fun x => k))
  (at level 61, m at next level, right associativity) : py_scope.
Notation "m ;;; k" := (bind m (fun _ => k))
  (at level 61, right associativity) : py_scope.

Open Scope py_scope.

(* ================================================================== *)
(** * The program: normalisation and gathering *)
(* ================================================================== *)

Section Recon.

Context {C : Collaborators}.

(** [safe_list(x)] *)
Definition safe_list (x : strs_attr) : list string :=
  match x with
  | StrsNone => []
  | StrsList l | StrsTuple l | StrsSet l => l
  | StrsOne s => [s]
  end.

(** Truth value of a date attribute ([not d] is its negation): [None],
    the empty string and the empty list or tuple are falsy. *)
Definition date_attr_truthy (d : date_attr) : bool :=
  match d with
  | DateNone => false
  | DateOne (DateTime _) => true
  | DateOne (DateText s) => Str.truthy s
  | DateList l | DateTuple l => match l with [] => false | _ => true end
  end.

(** [d[0]] *)
Definition getitem0 (l : list date_val) : M date_val :=
  match l with
  | x :: _ => ret x
  | [] => raise (mk_exc IndexError "list index out of range")
  end.

(** [d.strftime("%Y-%m-%d %H:%M:%S")] on a scalar ([None] for Python's
    [None]): only a datetime has the method. *)
Definition call_strftime (v : option date_val) : M string :=
  match v with
  | Some (DateTime dt) => ret (strftime_ymd_hms dt)
  | Some (DateText _) =>
      raise (mk_exc AttributeError "'str' object has no attribute 'strftime'")
  | None =>
      raise (mk_exc AttributeError "'NoneType' object has no attribute 'strftime'")
  end.

(** [str(d)] on a scalar *)
Definition scalar_str (v : option date_val) : string :=
  match v with
  | Some (DateTime dt) => datetime_str dt
  | Some (DateText s) => s
  | None => "None"
  end.

(** [fmt_date(d)], the helper inside [whois_lookup] *)
Definition fmt_date (d : date_attr) : M (option string) :=
  if negb (date_attr_truthy d) then ret None
  else
    v <- match d with
         | DateList l | DateTuple l => x <- getitem0 l ;; ret (Some x)
         | DateOne x => ret (Some x)
         | DateNone => ret None
         end ;;
    try_except (s <- call_strftime v ;; ret (Some s))
               [(Exception, fun _ => ret (Some (scalar_str v)))].

(** [str(getattr(w, "text", ""))] *)
Definition text_str (t : text_attr) : string :=
  match t with
  | TextNone => "None"
  | TextStr s => s
  end.

(** [sorted({ns.strip(".") for ns in l if ns})] *)
Definition norm_name_servers (l : list string) : list string :=
  Str.sorted (Str.set_of (map (Str.strip ".") (filter Str.truthy l))).

(** [whois_lookup(domain)] *)
Definition whois_lookup (domain : string) : M whois_dict :=
  got <- try_except
           (w <- call_whois domain ;; ret (inl w))
           [(Exception,
             fun e => ret (inr (WhoisError ("WHOIS failed: " ++ exc_str e))))] ;;
  match got with
  | inr early => ret early
  | inl w =>
      created <- fmt_date (getattr (e_creation_date w) DateNone) ;;
      expires <- fmt_date (getattr (e_expiration_date w) DateNone) ;;
      updated <- fmt_date (getattr (e_updated_date w) DateNone) ;;
      ret (WhoisData
             {| domain_ := domain;
                registrar := getattr (e_registrar w) None;
                creation_date := created;
                expiration_date := expires;
                updated_date := updated;
                name_servers :=
                  norm_name_servers
                    (safe_list (getattr (e_name_servers w) (StrsList [])));
                status := safe_list (getattr (e_status w) (StrsList []));
                raw := Str.take 2000 (text_str (getattr (e_text w) (TextStr ""))) |})
  end.

(** [dns_query(domain, rtype)] *)
Definition dns_query (domain rtype : string) : M (list string) :=
  try_except
    (answers <- call_resolve domain rtype ;; ret answers)
    [(NXDOMAIN, fun _ => ret ["NXDOMAIN"]);
     (NoAnswer, fun _ => ret []);
     (DNSException, fun e => ret ["DNS error: " ++ exc_str e])].

(** [d[k]] *)
Definition dict_getitem {V : Type} (d : dict V) (k : string) : M V :=
  match dict_get d k with
  | Some v => ret v
  | None => raise (mk_exc KeyError k)
  end.

Definition is_spf (t : string) : bool := Str.startswith (Str.lower t) "v=spf1".
Definition is_dmarc (t : string) : bool := Str.startswith (Str.lower t) "v=dmarc1".

(** [gather_dns(domain)] *)
Definition gather_dns (domain : string) : M (dict (list string)) :=
  records <- for_each ["A"; "AAAA"; "MX"; "TXT"; "NS"; "CNAME"]
               (fun rt records =>
                  v <- dns_query domain rt ;; ret (dict_set records rt v))
               [] ;;
  txt <- dict_getitem records "TXT" ;;
  let spf := filter is_spf txt in
  dmarc <- dns_query ("_dmarc." ++ domain) "TXT" ;;
  let dmarc := filter is_dmarc dmarc in
  let records := dict_set records "SPF" spf in
  let records := dict_set records "DMARC" dmarc in
  ret records.

End Recon.

(* ================================================================== *)
(** * Reporter *)
(* ================================================================== *)

Section Reporter.

Context {C : Collaborators}.

(** [x or "-"] for [x] a [str] or [None] *)
Definition or_dash (x : option string) : string :=
  match x with
  | Some s => if Str.truthy s then s else "-"
  | None => "-"
  end.

Definition LF : string := String "010"%char EmptyString.

(** [print_whois(w)] *)
Definition print_whois (w : whois_dict) : M unit :=
  match w with
  | WhoisError e =>
      call_print (Panel ("[red]" ++ e ++ "[/red]") "WHOIS" "red")
  | WhoisData r =>
      let rows :=
        [ ["Registrar"; or_dash (registrar r)];
          ["Created"; or_dash (creation_date r)];
          ["Updated"; or_dash (updated_date r)];
          ["Expires"; or_dash (expiration_date r)];
          ["Name Servers"; or_dash (Some (Str.join ", " (name_servers r)))];
          ["Status"; or_dash (Some (Str.join ", " (status r)))] ] in
      call_print (Table ("WHOIS: " ++ domain_ r) ["Field"; "Value"] rows)
  end.

(** The rows that the loop of [print_dns] adds to its table. *)
Fixpoint dns_table_rows (items : dict (list string)) : list (list string) :=
  match items with
  | [] => []
  | (rt, vals) :: rest =>
      if String.eqb rt "SPF" || String.eqb rt "DMARC" then dns_table_rows rest
      else
        let display :=
          match vals with [] => "-" | _ => Str.join ", " vals end in
        [rt; display] :: dns_table_rows rest
  end.

(** Truth value of [d.get(k)] for a dict of lists: a missing key
    ([None]) and the empty list are falsy. *)
Definition get_truthy (d : dict (list string)) (k : string) : bool :=
  match dict_get d k with
  | Some (_ :: _) => true
  | _ => false
  end.

(** [print_dns(d, domain)] *)
Definition print_dns (d : dict (list string)) (domain : string) : M unit :=
  call_print (Table ("DNS Records: " ++ domain) ["Type"; "Values"]
                    (dns_table_rows d)) ;;;
  (if get_truthy d "SPF" then
     spf <- dict_getitem d "SPF" ;;
     call_print (Panel (Str.join LF spf) "SPF (TXT)" "green")
   else
     call_print (Panel "No SPF record found" "SPF (TXT)" "yellow")) ;;;
  (if get_truthy d "DMARC" then
     dmarc <- dict_getitem d "DMARC" ;;
     call_print (Panel (Str.join LF dmarc) "DMARC (TXT)" "green")
   else
     call_print (Panel ("No DMARC record found at _dmarc." ++ domain)
                       "DMARC (TXT)" "yellow")).

End Reporter.

(* ================================================================== *)
(** * Exporter: the dict as Python sees it, JSON and CSV text *)
(* ================================================================== *)

(** The values that make up [out_data]: [None], [str], [list], and
    [dict] with [str] keys. *)
#[local] Unset Elimination Schemes.
Inductive pyval : Type :=
| PyNone
| PyStr (s : string)
| PyList (l : list pyval)
| PyDict (items : list (string * pyval)).
#[local] Set Elimination Schemes.

Definition py_opt (x : option string) : pyval :=
  match x with
  | Some s => PyStr s
  | None => PyNone
  end.

Definition py_strs (l : list string) : pyval := PyList (map PyStr l).

(** The items of the dict returned by [whois_lookup], in the order of
    its dict display. *)
Definition whois_items (w : whois_dict) : dict pyval :=
  match w with
  | WhoisError e => [("error", PyStr e)]
  | WhoisData r =>
      [ ("domain", PyStr (domain_ r));
        ("registrar", py_opt (registrar r));
        ("creation_date", py_opt (creation_date r));
        ("expiration_date", py_opt (expiration_date r));
        ("updated_date", py_opt (updated_date r));
        ("name_servers", py_strs (name_servers r));
        ("status", py_strs (status r));
        ("raw", PyStr (raw r)) ]
  end.

Definition py_of_whois (w : whois_dict) : pyval := PyDict (whois_items w).

Definition py_of_dns (d : dict (list string)) : pyval :=
  PyDict (map (fun kv => (fst kv, py_strs (snd kv))) d).

(** [out_data] as a Python value. *)
Definition py_of_result (data : ReconResult) : pyval :=
  PyDict [ ("domain", PyStr (r_domain data));
           ("whois", py_of_whois (r_whois data));
           ("dns", py_of_dns (r_dns data));
           ("timestamp_utc", PyStr (r_timestamp_utc data)) ].

Module Json.

Definition dquote : ascii := "034"%char.
Definition backslash : ascii := "092"%char.

Definition hex_digit (n : nat) : ascii :=
  if (n <? 10)%nat then ascii_of_nat (48 + n) else ascii_of_nat (87 + n).

(** The escape of one character with [ensure_ascii=False]: the quote,
    the backslash and the control characters are escaped, every other
    character is written as it is. *)
Definition escape_char (c : ascii) : string :=
  let n := nat_of_ascii c in
  if (n =? 34)%nat then String backslash (String dquote EmptyString)
  else if (n =? 92)%nat then String backslash (String backslash EmptyString)
  else if (n =? 10)%nat then String backslash "n"
  else if (n =? 13)%nat then String backslash "r"
  else if (n =? 9)%nat then String backslash "t"
  else if (n =? 8)%nat then String backslash "b"
  else if (n =? 12)%nat then String backslash "f"
  else if (n <? 32)%nat then
    String backslash
      ("u00" ++ String (hex_digit (n / 16)) (String (hex_digit (n mod 16)) EmptyString))
  else String c EmptyString.

Fixpoint escape (s : string) : string :=
  match s with
  | EmptyString => EmptyString
  | String c r => escape_char c ++ escape r
  end.

Definition encode_string (s : string) : string :=
  String dquote (escape s ++ String dquote EmptyString).

Fixpoint spaces (n : nat) : string :=
  match n with
  | 0 => EmptyString
  | S m => String " "%char (spaces m)
  end.

(** The line break and indentation before an item at nesting [level]
    ([indent=2]). *)
Definition newline_indent (level : nat) : string := LF ++ spaces (2 * level).

(** [json.dumps(v, indent=2, ensure_ascii=False)], at nesting [level]. *)
Fixpoint encode (level : nat) (v : pyval) : string :=
  match v with
  | PyNone => "null"
  | PyStr s => encode_string s
  | PyList l =>
      match l with
      | [] => "[]"
      | _ :: _ =>
          "[" ++ newline_indent (S level)
          ++ String.concat ("," ++ newline_indent (S level))
               (map (encode (S level)) l)
          ++ newline_indent level ++ "]"
      end
  | PyDict items =>
      match items with
      | [] => "{}"
      | _ :: _ =>
          "{" ++ newline_indent (S level)
          ++ String.concat ("," ++ newline_indent (S level))
               (map (fun kv => encode_string (fst kv) ++ ": "
                               ++ encode (S level) (snd kv)) items)
          ++ newline_indent level ++ "}"
      end
  end.

Definition dumps (v : pyval) : string := encode 0 v.

(** ** Decoding

    [json.loads] on the fragment of JSON that [encode] produces: [null],
    strings, arrays and objects.  Numbers, [true] and [false] are
    outside this fragment and are refused, as are escapes of code points
    from 256 on. *)

Definition is_ws (c : ascii) : bool :=
  Ascii.eqb c " " || Ascii.eqb c "009" || Ascii.eqb c "010" || Ascii.eqb c "013".

Fixpoint skip_ws (s : string) : string :=
  match s with
  | EmptyString => EmptyString
  | String c r => if is_ws c then skip_ws r else s
  end.

Definition hex_value (c : ascii) : option nat :=
  let n := nat_of_ascii c in
  if (48 <=? n)%nat && (n <=? 57)%nat then Some (n - 48)
  else if (97 <=? n)%nat && (n <=? 102)%nat then Some (n - 87)
  else if (65 <=? n)%nat && (n <=? 70)%nat then Some (n - 55)
  else None.

(** The character denoted by the four hex digits of a [\u] escape. *)
Definition unicode_escape (h1 h2 h3 h4 : ascii) : option ascii :=
  match hex_value h1, hex_value h2, hex_value h3, hex_value h4 with
  | Some a, Some b, Some c, Some d =>
      let n := ((a * 16 + b) * 16 + c) * 16 + d in
      if (n <? 256)%nat then Some (ascii_of_nat n) else None
  | _, _, _, _ => None
  end.

(** The character denoted by a one-letter escape. *)
Definition simple_escape (e : ascii) : option ascii :=
  if Ascii.eqb e dquote then Some dquote
  else if Ascii.eqb e backslash then Some backslash
  else if Ascii.eqb e "/" then Some "/"%char
  else if Ascii.eqb e "b" then Some "008"%char
  else if Ascii.eqb e "f" then Some "012"%char
  else if Ascii.eqb e "n" then Some "010"%char
  else if Ascii.eqb e "r" then Some "013"%char
  else if Ascii.eqb e "t" then Some "009"%char
  else None.

Definition cons_char (c : ascii) (p : option (string * string)) : option (string * string) :=
  match p with
  | Some (body, rest) => Some (String c body, rest)
  | None => None
  end.

(** The body of a string literal, after its opening quote: the decoded
    string and the text after the closing quote. *)
Fixpoint decode_string (s : string) : option (string * string) :=
  match s with
  | EmptyString => None
  | String c r =>
      if Ascii.eqb c dquote then Some (EmptyString, r)
      else if Ascii.eqb c backslash then
        match r with
        | String e r1 =>
            if Ascii.eqb e "u" then
              match r1 with
              | String h1 (String h2 (String h3 (String h4 r2))) =>
                  match unicode_escape h1 h2 h3 h4 with
                  | Some x => cons_char x (decode_string r2)
                  | None => None
                  end
              | _ => None
              end
            else
              match simple_escape e with
              | Some x => cons_char x (decode_string r1)
              | None => None
              end
        | EmptyString => None
        end
      else if (nat_of_ascii c <? 32)%nat then None
      else cons_char c (decode_string r)
  end.

(** [dict(pairs)]: a later pair with the same key overwrites the value. *)
Definition dict_of_pairs (pairs : list (string * pyval)) : dict pyval :=
  fold_left (fun d kv => dict_set d (fst kv) (snd kv)) pairs [].

(** A value, the elements of an array after its first bracket, and the
    members of an object after its first brace.  [fuel] bounds the
    nesting and the number of items. *)
Fixpoint decode_value (fuel : nat) (s : string) : option (pyval * string) :=
  match fuel with
  | 0 => None
  | S f =>
      match skip_ws s with
      | EmptyString => None
      | String c r =>
          if Ascii.eqb c "n" then
            match r with
            | String "u" (String "l" (String "l" r')) => Some (PyNone, r')
            | _ => None
            end
          else if Ascii.eqb c dquote then
            match decode_string r with
            | Some (x, r') => Some (PyStr x, r')
            | None => None
            end
          else if Ascii.eqb c "[" then
            match skip_ws r with
            | String "]" r' => Some (PyList [], r')
            | _ =>
                match decode_elements f r with
                | Some (l, r') => Some (PyList l, r')
                | None => None
                end
            end
          else if Ascii.eqb c "{" then
            match skip_ws r with
            | String "}" r' => Some (PyDict [], r')
            | _ =>
                match decode_members f r with
                | Some (pairs, r') => Some (PyDict (dict_of_pairs pairs), r')
                | None => None
                end
            end
          else None
      end
  end
with decode_elements (fuel : nat) (s : string) : option (list pyval * string) :=
  match fuel with
  | 0 => None
  | S f =>
      match decode_value f s with
      | Some (v, r) =>
          match skip_ws r with
          | String "," r' =>
              match decode_elements f r' with
              | Some (l, r'') => Some (v :: l, r'')
              | None => None
              end
          | String "]" r' => Some ([v], r')
          | _ => None
          end
      | None => None
      end
  end
with decode_members (fuel : nat) (s : string) : option (list (string * pyval) * string) :=
  match fuel with
  | 0 => None
  | S f =>
      match skip_ws s with
      | String c r =>
          if Ascii.eqb c dquote then
            match decode_string r with
            | Some (k, r1) =>
                match skip_ws r1 with
                | String ":" r2 =>
                    match decode_value f r2 with
                    | Some (v, r3) =>
                        match skip_ws r3 with
                        | String "," r4 =>
                            match decode_members f r4 with
                            | Some (l, r5) => Some ((k, v) :: l, r5)
                            | None => None
                            end
                        | String "}" r4 => Some ([(k, v)], r4)
                        | _ => None
                        end
                    | None => None
                    end
                | _ => None
                end
            | None => None
            end
          else None
      | EmptyString => None
      end
  end.

(** [json.loads(text)]: one value, with nothing but white space after. *)
Definition loads (text : string) : option pyval :=
  match decode_value (S (String.length text)) text with
  | Some (v, rest) =>
      match skip_ws rest with
      | EmptyString => Some v
      | _ => None
      end
  | None => None
  end.

End Json.

Module Csv.

Definition CRLF : string := String "013"%char (String "010"%char EmptyString).

(** A field is quoted when it holds the delimiter, the quote character
    or a character of the line terminator ([QUOTE_MINIMAL]). *)
Definition special (c : ascii) : bool :=
  Ascii.eqb c "," || Ascii.eqb c Json.dquote
  || Ascii.eqb c "013" || Ascii.eqb c "010".

Fixpoint needs_quote (s : string) : bool :=
  match s with
  | EmptyString => false
  | String c r => special c || needs_quote r
  end.

(** Every quote character inside a quoted field is written twice. *)
Fixpoint double_quotes (s : string) : string :=
  match s with
  | EmptyString => EmptyString
  | String c r =>
      if Ascii.eqb c Json.dquote
      then String c (String c (double_quotes r))
      else String c (double_quotes r)
  end.

(** One field; [None] is written as the empty field. *)
Definition field (cell : option string) : string :=
  match cell with
  | None => EmptyString
  | Some s =>
      if needs_quote s
      then String Json.dquote (double_quotes s ++ String Json.dquote EmptyString)
      else s
  end.

(** [writer.writerow(cells)]; a row of one empty field is written as a
    pair of quotes. *)
Definition writerow (cells : list (option string)) : string :=
  let line := Str.join "," (map field cells) in
  match cells, line with
  | [_], EmptyString => String Json.dquote (String Json.dquote CRLF)
  | _, _ => line ++ CRLF
  end.

(** [writer.writerows(rows)] *)
Definition writerows (rows : list (list (option string))) : string :=
  String.concat EmptyString (map writerow rows).

End Csv.

Section Exporter.

Context {C : Collaborators}.

(** [to_json(data, out_path)] *)
Definition to_json (data : ReconResult) (out_path : string) : M unit :=
  call_write out_path (Json.dumps (py_of_result data)).

(** The rows that the inner loop of [to_csv] appends for the values of
    one record type. *)
Definition append_values (rt : string) (vals : list string)
    (rows : list (list (option string))) : list (list (option string)) :=
  fold_left (fun rows v => (rows ++ [[Some "DNS"; Some rt; Some v]])%list) vals rows.

(** The list [rows] that [to_csv] builds before it opens the file. *)
Definition to_csv_rows (data : ReconResult) : list (list (option string)) :=
  let rows := [] in
  let w := r_whois data in
  let rows := (rows ++ [[Some "Section"; Some "Key"; Some "Value"]])%list in
  let rows :=
    match w with
    | WhoisError e => (rows ++ [[Some "WHOIS"; Some "error"; Some e]])%list
    | WhoisData r =>
        (rows ++
        [ [Some "WHOIS"; Some "domain"; Some (domain_ r)];
          [Some "WHOIS"; Some "registrar"; registrar r];
          [Some "WHOIS"; Some "creation_date"; creation_date r];
          [Some "WHOIS"; Some "updated_date"; updated_date r];
          [Some "WHOIS"; Some "expiration_date"; expiration_date r];
          [Some "WHOIS"; Some "name_servers"; Some (Str.join ";" (name_servers r))];
          [Some "WHOIS"; Some "status"; Some (Str.join ";" (status r))] ])%list
    end in
  fold_left
    (fun rows item =>
       match snd item with
       | [] => (rows ++ [[Some "DNS"; Some (fst item); Some "-"]])%list
       | _ :: _ => append_values (fst item) (snd item) rows
       end)
    (r_dns data) rows.

(** [to_csv(data, out_path)] *)
Definition to_csv (data : ReconResult) (out_path : string) : M unit :=
  call_write out_path (Csv.writerows (to_csv_rows data)).

(** Truth value of the [out] argument: [None] and the empty string are
    falsy. *)
Definition out_truthy (out : option string) : bool :=
  match out with
  | Some path => Str.truthy path
  | None => false
  end.

Definition banner (domain : string) (now : datetime) : renderable :=
  Panel ("[bold]WHOIS & DNS Recon[/bold]" ++ LF ++ "Target: [cyan]" ++ domain
         ++ "[/cyan]" ++ LF ++ "Time: " ++ datetime_str now ++ " UTC")
        "Recon" "blue".

Definition unknown_format : renderable :=
  Text "[red]Unknown format; use json or csv[/red]".

(** The export step of [run], from [if out:] on. *)
Definition export (out_data : ReconResult) (out : option string) (fmt : string) : M unit :=
  if out_truthy out then
    let path := getattr out EmptyString in
    if String.eqb (Str.lower fmt) "json" then
      to_json out_data path ;;;
      call_print (Text ("[green]Saved JSON ->[/green] " ++ path))
    else if String.eqb (Str.lower fmt) "csv" then
      to_csv out_data path ;;;
      call_print (Text ("[green]Saved CSV  ->[/green] " ++ path))
    else
      call_print unknown_format
  else ret tt.

(** [run(domain, out, fmt)] *)
Definition run (domain : string) (out : option string) (fmt : string) : M unit :=
  now <- call_utcnow ;;
  call_print (banner domain now) ;;;
  w <- whois_lookup domain ;;
  d <- gather_dns domain ;;
  print_whois w ;;;
  print_dns d domain ;;;
  stamp <- call_utcnow ;;
  let out_data :=
    {| r_domain := domain; r_whois := w; r_dns := d;
       r_timestamp_utc := isoformat stamp |} in
  export out_data out fmt.

End Exporter.

(* ================================================================== *)
(** * A concrete set of collaborators *)
(* ================================================================== *)

(** A small world for running the program: the world is the number of
    calls made so far; [example.com] is registered and resolves, every
    other name times out at the WHOIS server and does not exist in the
    DNS. *)
Module Sample.

Definition entry : whois_entry :=
  {| e_registrar := Some (Some "Example Registrar, Inc.");
     e_creation_date :=
       Some (DateList [DateTime (mk_datetime 1995 8 14 4 0 0 0); DateText "1995-08-14"]);
     e_expiration_date := Some (DateOne (DateText "before Aug-2026"));
     e_updated_date := None;
     e_name_servers :=
       Some (StrsList ["NS1.EXAMPLE.COM."; "ns2.example.com"; "ns1.example.com."]);
     e_status := Some (StrsOne "clientTransferProhibited");
     e_text := Some (TextStr "Domain Name: EXAMPLE.COM") |}.

Definition whois (domain : string) (w : nat) : result whois_entry * nat :=
  if String.eqb domain "example.com" then (Ret entry, S w)
  else (Raise (mk_exc OSError "no response"), S w).

Definition resolve (domain rtype : string) (w : nat) : result (list string) * nat :=
  if String.eqb domain "example.com" then
    if String.eqb rtype "A" then (Ret ["93.184.216.34"], S w)
    else if String.eqb rtype "TXT" then
      (Ret ["v=spf1 include:_spf.example.com ~all"; "unrelated"], S w)
    else if String.eqb rtype "NS" then
      (Ret ["ns1.example.com."; "ns2.example.com."], S w)
    else if String.eqb rtype "CNAME" then
      (Raise (mk_exc DNSException "The DNS operation timed out."), S w)
    else (Raise (mk_exc NoAnswer "no answer"), S w)
  else if String.eqb domain "_dmarc.example.com" then
    if String.eqb rtype "TXT" then
      (Ret ["V=DMARC1; p=none"; "google-site-verification=abc"], S w)
    else (Raise (mk_exc NoAnswer "no answer"), S w)
  else (Raise (mk_exc NXDOMAIN "The DNS query name does not exist."), S w).

Definition clock (w : nat) : datetime * nat :=
  (mk_datetime 2025 1 2 3 4 5 w, S w).

Definition write (path text : string) (w : nat) : result unit * nat :=
  if String.eqb path "/proc/forbidden"
  then (Raise (mk_exc OSError "Permission denied"), S w)
  else (Ret tt, S w).

Definition collaborators : Collaborators :=
  {| World := nat;
     whois_whois := whois;
     dns_resolver_resolve := resolve;
     datetime_utcnow := clock;
     console_print := fun _ w => S w;
     file_write := write |}.

Definition start : @state collaborators := @mk_state collaborators 0 [].

(** A result such as [run] assembles for [example.com]. *)
Definition result_ok : ReconResult :=
  {| r_domain := "example.com";
     r_whois :=
       WhoisData
         {| domain_ := "example.com";
            registrar := None;
            creation_date := Some "1995-08-14 04:00:00";
            expiration_date := None;
            updated_date := None;
            name_servers := ["a.iana-servers.net"; "b.iana-servers.net"];
            status := ["clientDeleteProhibited"; "clientTransferProhibited"];
            raw := "Domain Name: EXAMPLE.COM" |};
     r_dns := [("A", ["1.2.3.4"]); ("MX", []); ("TXT", ["v=spf1 -all"; "a,b"])];
     r_timestamp_utc := "2025-01-02T03:04:05" |}.

End Sample.

(* ================================================================== *)
(** * Contracts of the collaborators and specification-side notions *)
(* ================================================================== *)

Section Contracts.

Context {C : Collaborators}.

(** The resolver signals a failed resolution by an exception of the
    [DNSException] family. *)
Definition resolver_contract : Prop :=
  forall (domain rtype : string) (w w' : World) (e : exc),
    dns_resolver_resolve domain rtype w = (Raise e, w') ->
    isinstance e DNSException = true.

(** The WHOIS client signals a failure by an instance of [Exception]. *)
Definition whois_contract : Prop :=
  forall (domain : string) (w w' : World) (e : exc),
    whois_whois domain w = (Raise e, w') ->
    isinstance e Exception = true.

(** The list that stands for the outcome of one resolver call. *)
Definition dns_outcome (r : result (list string)) : list string :=
  match r with
  | Ret answers => answers
  | Raise e =>
      if isinstance e NXDOMAIN then ["NXDOMAIN"]
      else if isinstance e NoAnswer then []
      else ["DNS error: " ++ exc_str e]
  end.

(** The state after the resolver has been called once more. *)
Definition after_resolve (domain rtype : string) (st : state) : state :=
  record_call (CallResolve domain rtype) st
              (snd (dns_resolver_resolve domain rtype (world st))).

(** The list that [dns_query] returns in state [st]. *)
Definition dns_answer (domain rtype : string) (st : state) : list string :=
  dns_outcome (fst (dns_resolver_resolve domain rtype (world st))).

(** The state after the queries for [types], one after the other. *)
Fixpoint after_queries (domain : string) (types : list string) (st : state) : state :=
  match types with
  | [] => st
  | rt :: rest => after_queries domain rest (after_resolve domain rt st)
  end.

(** The items that these queries yield, one per type. *)
Fixpoint base_records (domain : string) (types : list string) (st : state)
  : dict (list string) :=
  match types with
  | [] => []
  | rt :: rest =>
      (rt, dns_answer domain rt st)
        :: base_records domain rest (after_resolve domain rt st)
  end.

End Contracts.

Definition base_types : list string := ["A"; "AAAA"; "MX"; "TXT"; "NS"; "CNAME"].


(** Every character of [s] occurs in [chars]. *)
Fixpoint only (chars s : string) : bool :=
  match s with
  | EmptyString => true
  | String c r => Str.mem c chars && only chars r
  end.

(** [s1 < s2] on code points. *)
Definition str_lt (s1 s2 : string) : Prop := String.ltb s1 s2 = true.



Definition is_digit (c : ascii) : bool :=
  (48 <=? nat_of_ascii c)%nat && (nat_of_ascii c <=? 57)%nat.


(** The string that one chosen date value is turned into: the
    formatted date for a datetime, the text itself otherwise. *)
Definition fmt_scalar (v : date_val) : string :=
  match v with
  | DateTime dt => strftime_ymd_hms dt
  | DateText s => s
  end.

(** What the date normalisation yields: nothing for a falsy value
    ([None], the empty string, an empty list or tuple); otherwise the
    value itself, or the first candidate of a list or tuple, as
    [fmt_scalar] renders it. *)
Definition fmt_date_value (d : date_attr) : option string :=
  match d with
  | DateNone => None
  | DateOne (DateText EmptyString) => None
  | DateOne v => Some (fmt_scalar v)
  | DateList [] | DateTuple [] => None
  | DateList (x :: _) | DateTuple (x :: _) => Some (fmt_scalar x)
  end.





(** The eight keys of the success dict of [whois_lookup]. *)
Definition whois_keys : list string :=
  [ "domain"; "registrar"; "creation_date"; "expiration_date"; "updated_date";
    "name_servers"; "status"; "raw" ].

(** ** The steps of [run] before the export *)

(** The record that [whois_lookup] makes of a client entry. *)
Definition whois_record_of (domain : string) (w : whois_entry) : WhoisRecord :=
  {| domain_ := domain;
     registrar := getattr (e_registrar w) None;
     creation_date := fmt_date_value (getattr (e_creation_date w) DateNone);
     expiration_date := fmt_date_value (getattr (e_expiration_date w) DateNone);
     updated_date := fmt_date_value (getattr (e_updated_date w) DateNone);
     name_servers :=
       norm_name_servers (safe_list (getattr (e_name_servers w) (StrsList [])));
     status := safe_list (getattr (e_status w) (StrsList []));
     raw := Str.take 2000 (text_str (getattr (e_text w) (TextStr EmptyString))) |}.

(** What is printed for the WHOIS dict. *)
Definition whois_view (w : whois_dict) : renderable :=
  match w with
  | WhoisError e => Panel ("[red]" ++ e ++ "[/red]") "WHOIS" "red"
  | WhoisData r =>
      Table ("WHOIS: " ++ domain_ r) ["Field"; "Value"]
        [ ["Registrar"; or_dash (registrar r)];
          ["Created"; or_dash (creation_date r)];
          ["Updated"; or_dash (updated_date r)];
          ["Expires"; or_dash (expiration_date r)];
          ["Name Servers"; or_dash (Some (Str.join ", " (name_servers r)))];
          ["Status"; or_dash (Some (Str.join ", " (status r)))] ]
  end.





Section Steps.

Context {C : Collaborators}.

Definition after_print (r : renderable) (st : state) : state :=
  record_call (CallPrint r) st (console_print r (world st)).

Definition after_utcnow (st : state) : state :=
  record_call CallUtcnow st (snd (datetime_utcnow (world st))).

Definition after_whois (domain : string) (st : state) : state :=
  record_call (CallWhois domain) st (snd (whois_whois domain (world st))).

(** The dict that [whois_lookup] returns in state [st]. *)
Definition whois_answer (domain : string) (st : state) : whois_dict :=
  match fst (whois_whois domain (world st)) with
  | Ret w => WhoisData (whois_record_of domain w)
  | Raise e => WhoisError ("WHOIS failed: " ++ exc_str e)
  end.

(** The dict that [gather_dns] returns in state [st], and the state
    after it. *)
Definition gathered (domain : string) (st : state) : dict (list string) :=
  (base_records domain base_types st
   ++ [ ("SPF",
         filter is_spf
           (dns_answer domain "TXT" (after_queries domain ["A"; "AAAA"; "MX"] st)));
        ("DMARC",
         filter is_dmarc
           (dns_answer ("_dmarc." ++ domain) "TXT"
              (after_queries domain base_types st))) ])%list.

Definition after_gather (domain : string) (st : state) : state :=
  after_resolve ("_dmarc." ++ domain) "TXT" (after_queries domain base_types st).

(** The state in which [run] reaches [if out:], and the dict
    [out_data] it has assembled by then. *)
Definition state_looked_up (domain : string) (st : state) : state :=
  after_print (banner domain (fst (datetime_utcnow (world st)))) (after_utcnow st).





End Steps.

(** No string occurs twice in [l]. *)
Fixpoint all_different (l : list string) : bool :=
  match l with
  | [] => true
  | x :: r => negb (existsb (String.eqb x) r) && all_different r
  end.

(** ** Well-formed Python values *)

(** A Python dict holds each key once: in a well-formed value the keys
    of every dict, at any depth, are pairwise different. *)
Fixpoint py_wf (v : pyval) : Prop :=
  match v with
  | PyNone | PyStr _ => True
  | PyList l => fold_right (fun x rest => py_wf x /\ rest) True l
  | PyDict items =>
      NoDup (map fst items)
      /\ fold_right (fun kv rest => py_wf (snd kv) /\ rest) True items
  end.

(** A bound on the fuel that decoding the text of [v] takes. *)
Fixpoint weight (v : pyval) : nat :=
  match v with
  | PyNone | PyStr _ => 1
  | PyList l => S (fold_right (fun x rest => S (weight x + rest)) 0 l)
  | PyDict items => S (fold_right (fun kv rest => S (weight (snd kv) + rest)) 0 items)
  end.

(** The first character of an encoded value. *)
Definition opens_value (s : string) : Prop :=
  exists c r, s = String c r
              /\ (c = "n"%char \/ c = Json.dquote \/ c = "["%char \/ c = "{"%char).

(** Decoding the text of [v], whatever follows it, gives [v] back and
    stops right after it. *)
Definition decodes (v : pyval) : Prop :=
  forall fuel level rest,
    weight v <= fuel ->
    Json.decode_value fuel (Json.encode level v ++ rest) = Some (v, rest).

(** ** The CSV layout, from the dict *)

Definition csv_header : list (option string) :=
  [Some "Section"; Some "Key"; Some "Value"].

(** The keys of the WHOIS rows, in row order. *)
Definition csv_whois_keys : list string :=
  [ "domain"; "registrar"; "creation_date"; "updated_date"; "expiration_date";
    "name_servers"; "status" ].

(** The strings of a list of [str]. *)
Fixpoint strings_of (l : list pyval) : list string :=
  match l with
  | PyStr s :: r => s :: strings_of r
  | _ :: r => strings_of r
  | [] => []
  end.

(** The cell for a value of the WHOIS dict: a list is joined with
    semicolons, [None] is the empty cell. *)
Definition csv_value (v : option pyval) : option string :=
  match v with
  | Some (PyStr s) => Some s
  | Some (PyList l) => Some (Str.join ";" (strings_of l))
  | _ => None
  end.

(** The WHOIS rows: the single error row, or one row per key. *)
Definition csv_whois_section (w : whois_dict) : list (list (option string)) :=
  match dict_get (whois_items w) "error" with
  | Some message => [[Some "WHOIS"; Some "error"; csv_value (Some message)]]
  | None =>
      map (fun k => [Some "WHOIS"; Some k; csv_value (dict_get (whois_items w) k)])
          csv_whois_keys
  end.

(** The DNS rows of one record type. *)
Definition csv_dns_section (item : string * list string) : list (list (option string)) :=
  match snd item with
  | [] => [[Some "DNS"; Some (fst item); Some "-"]]
  | vals => map (fun v => [Some "DNS"; Some (fst item); Some v]) vals
  end.

(** ** Calls that matter to the export *)



(** ** Notions for the reporter and the exporter *)


(** The labels of the WHOIS table, in row order. *)
Definition whois_labels : list string :=
  ["Registrar"; "Created"; "Updated"; "Expires"; "Name Servers"; "Status"].

(** The cell shown for a field that may be missing or empty: a dash
    then, the text of the field otherwise. *)
Definition shows_as (field : option string) (cell : string) : Prop :=
  (field = None \/ field = Some EmptyString -> cell = "-")
  /\ (forall s, field = Some s -> s <> EmptyString -> cell = s).

(** The first cell of a row. *)
Definition row_label (row : list string) : string := hd EmptyString row.

(** The number of CSV rows that the DNS dict takes: one per value, and
    one for a record type without values. *)
Fixpoint dns_row_count (d : dict (list string)) : nat :=
  match d with
  | [] => 0
  | (_, vals) :: rest => Nat.max 1 (List.length vals) + dns_row_count rest
  end.

(** The number of CSV rows that the WHOIS dict takes. *)
Definition whois_row_count (w : whois_dict) : nat :=
  match w with
  | WhoisError _ => 1
  | WhoisData _ => 7
  end.



(** ** Collaborators that fail outside the caught families *)

(** A world in which the user interrupts the WHOIS call, and one in
    which the resolver fails with an operating-system error. *)
Module Faulty.

Definition interrupt : exc := mk_exc BaseException "KeyboardInterrupt".

Definition os_error : exc := mk_exc OSError "Network is unreachable".

Definition interrupted : Collaborators :=
  {| World := nat;
     whois_whois := fun _ w => (Raise interrupt, S w);
     dns_resolver_resolve := Sample.resolve;
     datetime_utcnow := Sample.clock;
     console_print := fun _ w => S w;
     file_write := Sample.write |}.

Definition unreachable : Collaborators :=
  {| World := nat;
     whois_whois := Sample.whois;
     dns_resolver_resolve := fun _ _ w => (Raise os_error, S w);
     datetime_utcnow := Sample.clock;
     console_print := fun _ w => S w;
     file_write := Sample.write |}.

End Faulty.

(* ================================================================== *)
(** * Properties *)
(* ================================================================== *)

(** ** The exception hierarchy *)

Lemma issubclass_refl (c : exc_class) : issubclass c c = true.
Proof. destruct c; reflexivity. Qed.

Lemma dns_exception_is_exception (c : exc_class) :
  issubclass c DNSException = true -> issubclass c Exception = true.
Proof. destruct c; simpl; intros H; try reflexivity; discriminate H. Qed.

(** The classes under [DNSException] are itself, [NXDOMAIN] and
    [NoAnswer]; the latter two are disjoint. *)
Lemma issubclass_dns_cases (c : exc_class) :
  issubclass c DNSException = true ->
  c = DNSException \/ c = NXDOMAIN \/ c = NoAnswer.
Proof. destruct c; simpl; intros H; try discriminate H; auto. Qed.

(** ** The monad *)

Section MonadFacts.

Context {C : Collaborators}.

Lemma bind_ret {A B : Type} (a : A) (k : A -> M B) (st : state) :
  bind (ret a) k st = k a st.
Proof. reflexivity. Qed.

Lemma bind_returns {A B : Type} (m : M A) (k : A -> M B) (st st' : state) (a : A) :
  m st = (Ret a, st') -> bind m k st = k a st'.
Proof. intros H. unfold bind. rewrite H. reflexivity. Qed.

Lemma bind_raises {A B : Type} (m : M A) (k : A -> M B) (st st' : state) (e : exc) :
  m st = (Raise e, st') -> bind m k st = (Raise e, st').
Proof. intros H. unfold bind. rewrite H. reflexivity. Qed.

Lemma try_except_returns {A : Type} (m : M A) (clauses : list (except_clause A))
    (st st' : state) (a : A) :
  m st = (Ret a, st') -> try_except m clauses st = (Ret a, st').
Proof. intros H. unfold try_except. rewrite H. reflexivity. Qed.

Lemma try_except_raises {A : Type} (m : M A) (clauses : list (except_clause A))
    (st st' : state) (e : exc) :
  m st = (Raise e, st') -> try_except m clauses st = dispatch clauses e st'.
Proof. intros H. unfold try_except. rewrite H. reflexivity. Qed.

(** An exception that no clause names goes through. *)
Lemma dispatch_no_match {A : Type} (clauses : list (except_clause A)) (e : exc) (st : state) :
  forallb (fun cl => negb (isinstance e (fst cl))) clauses = true ->
  dispatch clauses e st = (Raise e, st).
Proof.
  induction clauses as [|[k h] rest IH]; simpl; intros H.
  - reflexivity.
  - apply andb_prop in H. destruct H as [Hk Hrest].
    apply negb_true_iff in Hk. rewrite Hk. auto.
Qed.

End MonadFacts.

(** ** WHOIS lookup: failures become data *)

(** What [whois_lookup] returns when the client raises an [Exception]. *)
Lemma whois_lookup_dispatch {C : Collaborators}
    (domain : string) (st : state) (e : exc) (w' : World) :
  whois_whois domain (world st) = (Raise e, w') ->
  isinstance e Exception = true ->
  whois_lookup domain st
  = (Ret (WhoisError ("WHOIS failed: " ++ exc_str e)),
     record_call (CallWhois domain) st w').
Proof.
  intros Hraise Hinst.
  unfold whois_lookup, bind, try_except, call_whois.
  rewrite Hraise. simpl. rewrite Hinst. reflexivity.
Qed.

(** C1. When the WHOIS client raises an exception [e] (an instance of
    [Exception]), [whois_lookup] does not raise: after that single call
    it returns the dict whose only item is [error], with the value
    "WHOIS failed: " followed by [str(e)]. *)
Theorem whois_lookup_client_raises {C : Collaborators}
    (domain : string) (st : state) (e : exc) (w' : World) :
  whois_whois domain (world st) = (Raise e, w') ->
  isinstance e Exception = true ->
  exists r : whois_dict,
    whois_lookup domain st = (Ret r, record_call (CallWhois domain) st w')
    /\ whois_items r = [("error", PyStr ("WHOIS failed: " ++ exc_str e))].
Proof.
  intros Hraise Hinst.
  exists (WhoisError ("WHOIS failed: " ++ exc_str e)). split; [|reflexivity].
  apply whois_lookup_dispatch; assumption.
Qed.

Lemma whois_lookup_client_raises_witness :
  @whois_whois Sample.collaborators "nope.example" (world Sample.start)
    = (Raise (mk_exc OSError "no response"), 1)
  /\ isinstance (mk_exc OSError "no response") Exception = true
  /\ exists r : whois_dict,
       @whois_lookup Sample.collaborators "nope.example" Sample.start
         = (Ret r, record_call (CallWhois "nope.example") Sample.start 1)
       /\ whois_items r = [("error", PyStr "WHOIS failed: no response")].
Proof.
  split; [reflexivity|]. split; [reflexivity|].
  apply (@whois_lookup_client_raises Sample.collaborators "nope.example"
           Sample.start (mk_exc OSError "no response") 1); reflexivity.
Defined.

(** An exception outside [Exception] (a keyboard interrupt) is not
    caught. *)
Lemma whois_lookup_propagates {C : Collaborators}
    (domain : string) (st : state) (e : exc) (w' : World) :
  whois_whois domain (world st) = (Raise e, w') ->
  isinstance e Exception = false ->
  whois_lookup domain st = (Raise e, record_call (CallWhois domain) st w').
Proof.
  intros Hraise Hinst.
  unfold whois_lookup, bind, try_except, call_whois.
  rewrite Hraise. simpl. rewrite Hinst. reflexivity.
Qed.

(** ** DNS queries: failures become data *)

Section DnsQuery.

Context {C : Collaborators}.

(** Under the resolver's contract at this call, [dns_query] returns
    the list that stands for the outcome. *)
Lemma dns_query_eq (domain rtype : string) (st : state) :
  (forall e w', dns_resolver_resolve domain rtype (world st) = (Raise e, w') ->
                isinstance e DNSException = true) ->
  dns_query domain rtype st
  = (Ret (dns_answer domain rtype st), after_resolve domain rtype st).
Proof.
  intros Hc.
  unfold dns_query, try_except, bind, call_resolve, dns_answer, after_resolve.
  destruct (dns_resolver_resolve domain rtype (world st)) as [[answers|e] w'] eqn:Hr;
    simpl.
  - reflexivity.
  - specialize (Hc e w' eq_refl).
    destruct (isinstance e NXDOMAIN); [reflexivity|].
    destruct (isinstance e NoAnswer); [reflexivity|].
    rewrite Hc. reflexivity.
Qed.

(** An exception outside the [DNSException] family is not caught. *)
Lemma dns_query_propagates (domain rtype : string) (st : state) (e : exc) (w' : World) :
  dns_resolver_resolve domain rtype (world st) = (Raise e, w') ->
  isinstance e DNSException = false ->
  dns_query domain rtype st
  = (Raise e, record_call (CallResolve domain rtype) st w').
Proof.
  intros Hr He.
  unfold dns_query, try_except, bind, call_resolve. rewrite Hr. simpl.
  destruct e as [c msg]. unfold isinstance in *. simpl in *.
  destruct c; try discriminate He; reflexivity.
Qed.

End DnsQuery.

(** C2. [dns_query] does not raise on a resolution failure: it makes
    one resolver call and returns [["NXDOMAIN"]] when the resolver
    signals that the domain does not exist, [[]] when it signals that
    there is no record of the type, the one-element list with
    "DNS error: " followed by the message on any other resolution
    failure, and the answers themselves on success. *)
Theorem dns_query_failures_as_data {C : Collaborators}
    (domain rtype : string) (st : state) :
  (forall e w', dns_resolver_resolve domain rtype (world st) = (Raise e, w') ->
                isinstance e DNSException = true) ->
  exists (l : list string) (w' : World),
    dns_query domain rtype st
    = (Ret l, record_call (CallResolve domain rtype) st w')
    /\ (forall e w'',
          dns_resolver_resolve domain rtype (world st) = (Raise e, w'') ->
          (isinstance e NXDOMAIN = true -> l = ["NXDOMAIN"])
          /\ (isinstance e NoAnswer = true -> l = [])
          /\ (isinstance e NXDOMAIN = false -> isinstance e NoAnswer = false ->
              l = ["DNS error: " ++ exc_str e]))
    /\ (forall answers w'',
          dns_resolver_resolve domain rtype (world st) = (Ret answers, w'') ->
          l = answers).
Proof.
  intros Hc.
  exists (dns_answer domain rtype st),
         (snd (dns_resolver_resolve domain rtype (world st))).
  split; [apply dns_query_eq; exact Hc|].
  unfold dns_answer. split.
  - intros e w'' Hr. rewrite Hr. simpl.
    destruct e as [c msg]. unfold isinstance. simpl.
    repeat split; intros H1; try intros H2;
      destruct c; simpl in *; try discriminate; reflexivity.
  - intros answers w'' Hr. rewrite Hr. reflexivity.
Qed.

Lemma dns_query_failures_as_data_witness :
  (forall e w',
      @dns_resolver_resolve Sample.collaborators "example.com" "CNAME"
        (world Sample.start) = (Raise e, w') ->
      isinstance e DNSException = true)
  /\ exists (l : list string) (w' : @World Sample.collaborators),
       @dns_query Sample.collaborators "example.com" "CNAME" Sample.start
       = (Ret l, record_call (CallResolve "example.com" "CNAME") Sample.start w')
       /\ (forall e w'',
             @dns_resolver_resolve Sample.collaborators "example.com" "CNAME"
               (world Sample.start) = (Raise e, w'') ->
             (isinstance e NXDOMAIN = true -> l = ["NXDOMAIN"])
             /\ (isinstance e NoAnswer = true -> l = [])
             /\ (isinstance e NXDOMAIN = false -> isinstance e NoAnswer = false ->
                 l = ["DNS error: " ++ exc_str e]))
       /\ (forall answers w'',
             @dns_resolver_resolve Sample.collaborators "example.com" "CNAME"
               (world Sample.start) = (Ret answers, w'') ->
             l = answers).
Proof.
  assert (H : forall e w',
             @dns_resolver_resolve Sample.collaborators "example.com" "CNAME"
               (world Sample.start) = (Raise e, w') ->
             isinstance e DNSException = true).
  { intros e w' H. simpl in H. injection H as He _. subst e. reflexivity. }
  split; [exact H|].
  apply (@dns_query_failures_as_data Sample.collaborators
           "example.com" "CNAME" Sample.start H).
Defined.

(** ** Gathering *)

Lemma prefix_iff (p s : string) :
  String.prefix p s = true <-> exists rest, s = p ++ rest.
Proof.
  revert s. induction p as [|a p IH]; intros s.
  - split; [intros _; exists s; reflexivity|intros _; destruct s; reflexivity].
  - destruct s as [|b s]; simpl.
    + split; [discriminate|intros [rest H]; discriminate H].
    + destruct (ascii_dec a b) as [->|Hne].
      * rewrite IH. split; intros [rest H]; exists rest.
        -- rewrite H. reflexivity.
        -- injection H as H. exact H.
      * split; [discriminate|].
        intros [rest H]. injection H as Hab _. congruence.
Qed.

Section GatherFacts.

Context {C : Collaborators}.


(** What [gather_dns] returns, and the state it leaves. *)
Lemma gather_dns_eq (domain : string) (st : state) :
  resolver_contract ->
  let st6 := after_queries domain base_types st in
  gather_dns domain st
  = (Ret (base_records domain base_types st
          ++ [ ("SPF",
                filter is_spf
                  (dns_answer domain "TXT"
                     (after_queries domain ["A"; "AAAA"; "MX"] st)));
               ("DMARC",
                filter is_dmarc (dns_answer ("_dmarc." ++ domain) "TXT" st6)) ])%list,
     after_resolve ("_dmarc." ++ domain) "TXT" st6).
Proof.
  intros Hc.
  assert (Hq : forall d rt s,
             dns_query d rt s = (Ret (dns_answer d rt s), after_resolve d rt s)).
  { intros d rt s. apply dns_query_eq. intros e w'. apply Hc. }
  unfold gather_dns. cbn [for_each]. unfold bind.
  repeat (rewrite Hq; cbn [ret dict_set String.eqb Ascii.eqb Bool.eqb]).
  unfold dict_getitem. cbn [dict_get String.eqb Ascii.eqb Bool.eqb ret].
  rewrite Hq. reflexivity.
Qed.

End GatherFacts.


Lemma sample_resolver_contract : @resolver_contract Sample.collaborators.
Proof.
  intros domain rtype w w' e. simpl. unfold Sample.resolve.
  repeat match goal with
         | |- context [if ?b then _ else _] => destruct b
         end;
    intros H; try discriminate H; injection H as He _; subst e; reflexivity.
Defined.


(** C5. In the dict that [gather_dns] returns, SPF is the TXT list
    filtered, in order, by "the lower-cased value starts with v=spf1",
    and DMARC is the answer of the separate TXT query at
    [_dmarc.<domain>] filtered by "the lower-cased value starts with
    v=dmarc1".  With the TXT values
    ["v=spf1 include:_spf.example.com ~all"; "unrelated"], SPF is
    ["v=spf1 include:_spf.example.com ~all"]. *)
Theorem gather_dns_spf_dmarc {C : Collaborators} (domain : string) (st : state) :
  resolver_contract ->
  exists (records : dict (list string)) (st' : state) (txt probe : list string),
    gather_dns domain st = (Ret records, st')
    /\ dict_get records "TXT" = Some txt
    /\ dict_get records "SPF" = Some (filter is_spf txt)
    /\ dns_query ("_dmarc." ++ domain) "TXT" (after_queries domain base_types st)
       = (Ret probe, st')
    /\ dict_get records "DMARC" = Some (filter is_dmarc probe)
    /\ (forall t, is_spf t = true <-> exists rest, Str.lower t = "v=spf1" ++ rest)
    /\ (forall t, is_dmarc t = true <-> exists rest, Str.lower t = "v=dmarc1" ++ rest)
    /\ (txt = ["v=spf1 include:_spf.example.com ~all"; "unrelated"] ->
        dict_get records "SPF" = Some ["v=spf1 include:_spf.example.com ~all"]).
Proof.
  intros Hc.
  exists (base_records domain base_types st
          ++ [ ("SPF",
                filter is_spf
                  (dns_answer domain "TXT"
                     (after_queries domain ["A"; "AAAA"; "MX"] st)));
               ("DMARC",
                filter is_dmarc
                  (dns_answer ("_dmarc." ++ domain) "TXT"
                     (after_queries domain base_types st))) ])%list,
         (after_resolve ("_dmarc." ++ domain) "TXT"
            (after_queries domain base_types st)),
         (dns_answer domain "TXT" (after_queries domain ["A"; "AAAA"; "MX"] st)),
         (dns_answer ("_dmarc." ++ domain) "TXT" (after_queries domain base_types st)).
  split; [apply gather_dns_eq; exact Hc|].
  split; [reflexivity|]. split; [reflexivity|].
  split; [apply dns_query_eq; intros e w'; apply Hc|].
  split; [reflexivity|].
  split; [intros t; apply prefix_iff|].
  split; [intros t; apply prefix_iff|].
  intros Htxt. cbn [base_records base_types app dict_get String.eqb Ascii.eqb Bool.eqb].
  rewrite Htxt. reflexivity.
Qed.

Lemma gather_dns_spf_dmarc_witness :
  @resolver_contract Sample.collaborators
  /\ exists (records : dict (list string)) (st' : @state Sample.collaborators)
            (txt probe : list string),
       gather_dns "example.com" Sample.start = (Ret records, st')
       /\ dict_get records "TXT" = Some txt
       /\ dict_get records "SPF" = Some (filter is_spf txt)
       /\ dns_query ("_dmarc." ++ "example.com") "TXT"
            (after_queries "example.com" base_types Sample.start)
          = (Ret probe, st')
       /\ dict_get records "DMARC" = Some (filter is_dmarc probe)
       /\ (forall t, is_spf t = true <-> exists rest, Str.lower t = "v=spf1" ++ rest)
       /\ (forall t, is_dmarc t = true <-> exists rest, Str.lower t = "v=dmarc1" ++ rest)
       /\ (txt = ["v=spf1 include:_spf.example.com ~all"; "unrelated"] ->
           dict_get records "SPF" = Some ["v=spf1 include:_spf.example.com ~all"]).
Proof.
  split; [exact sample_resolver_contract|].
  apply (@gather_dns_spf_dmarc Sample.collaborators "example.com" Sample.start).
  exact sample_resolver_contract.
Defined.

(** ** Strings *)

Lemma append_nil_r (s : string) : s ++ "" = s.
Proof. induction s as [|a s IH]; simpl; [reflexivity|now rewrite IH]. Qed.

Lemma append_assoc (a b c : string) : (a ++ b) ++ c = a ++ (b ++ c).
Proof. induction a as [|x a IH]; simpl; [reflexivity|now rewrite IH]. Qed.

Lemma length_append (a b : string) :
  String.length (a ++ b) = String.length a + String.length b.
Proof. induction a as [|x a IH]; simpl; [reflexivity|now rewrite IH]. Qed.

Lemma rev_onto_eq (s acc : string) : Str.rev_onto s acc = Str.rev s ++ acc.
Proof.
  unfold Str.rev. revert acc.
  induction s as [|a s IH]; intros acc; simpl; [reflexivity|].
  rewrite IH, (IH (String a "")), append_assoc. reflexivity.
Qed.

Lemma rev_cons (a : ascii) (s : string) :
  Str.rev (String a s) = Str.rev s ++ String a "".
Proof. unfold Str.rev at 1. simpl. apply rev_onto_eq. Qed.

Lemma rev_append (a b : string) : Str.rev (a ++ b) = Str.rev b ++ Str.rev a.
Proof.
  induction a as [|x a IH]; simpl.
  - now rewrite append_nil_r.
  - now rewrite !rev_cons, IH, append_assoc.
Qed.

Lemma rev_involutive (s : string) : Str.rev (Str.rev s) = s.
Proof.
  induction s as [|a s IH]; [reflexivity|].
  now rewrite rev_cons, rev_append, IH.
Qed.

Lemma only_append (chars a b : string) :
  only chars (a ++ b) = only chars a && only chars b.
Proof.
  induction a as [|x a IH]; simpl; [reflexivity|].
  now rewrite IH, andb_assoc.
Qed.

Lemma only_rev (chars s : string) : only chars (Str.rev s) = only chars s.
Proof.
  induction s as [|a s IH]; [reflexivity|].
  rewrite rev_cons, only_append, IH. simpl.
  rewrite andb_true_r. apply andb_comm.
Qed.

(** [lstrip] removes a prefix made of [chars], and what is left does
    not start with one of them. *)
Lemma lstrip_spec (chars s : string) :
  exists a, s = a ++ Str.lstrip chars s
            /\ only chars a = true
            /\ forall c r, Str.lstrip chars s = String c r -> Str.mem c chars = false.
Proof.
  induction s as [|x s (a & Hs & Ha & Hhead)]; simpl.
  - exists "". repeat split. discriminate.
  - destruct (Str.mem x chars) eqn:Hx.
    + exists (String x a). simpl. rewrite Hx, Ha. repeat split; [|exact Hhead].
      now rewrite <- Hs.
    + exists "". repeat split. intros c r H. injection H as <- _. exact Hx.
Qed.

(** [rstrip] removes a suffix made of [chars], and what is left does
    not end with one of them. *)
Lemma rstrip_spec (chars s : string) :
  exists b, s = Str.rstrip chars s ++ b
            /\ only chars b = true
            /\ forall r c, Str.rstrip chars s = r ++ String c "" -> Str.mem c chars = false.
Proof.
  destruct (lstrip_spec chars (Str.rev s)) as (a & Hs & Ha & Hhead).
  exists (Str.rev a). unfold Str.rstrip. repeat split.
  - rewrite <- rev_append, <- Hs. symmetry. apply rev_involutive.
  - now rewrite only_rev.
  - intros r c H. apply (Hhead c (Str.rev r)).
    rewrite <- (rev_involutive (Str.lstrip chars (Str.rev s))), H, rev_append.
    reflexivity.
Qed.

(** [strip] removes a prefix and a suffix made of [chars]; what is left
    neither starts nor ends with one of them. *)
Lemma strip_spec (chars s : string) :
  exists a b,
    s = a ++ Str.strip chars s ++ b
    /\ only chars a = true /\ only chars b = true
    /\ (forall c r, Str.strip chars s = String c r -> Str.mem c chars = false)
    /\ (forall r c, Str.strip chars s = r ++ String c "" -> Str.mem c chars = false).
Proof.
  destruct (lstrip_spec chars s) as (a & Hs & Ha & Hhead).
  destruct (rstrip_spec chars (Str.lstrip chars s)) as (b & Ht & Hb & Hlast).
  exists a, b. unfold Str.strip. repeat split; try assumption.
  - now rewrite <- Ht.
  - intros c r H. apply (Hhead c (r ++ b)). rewrite Ht, H. reflexivity.
Qed.

Lemma length_take (n : nat) (s : string) : String.length (Str.take n s) <= n.
Proof.
  unfold Str.take. revert s.
  induction n as [|n IH]; intros [|a s]; simpl; try lia.
  specialize (IH s). lia.
Qed.

(** ** The order on strings and [sorted] *)

Lemma ascii_compare_refl (a : ascii) : Ascii.compare a a = Eq.
Proof. apply N.compare_refl. Qed.

Lemma ascii_compare_lt_trans (a b c : ascii) :
  Ascii.compare a b = Lt -> Ascii.compare b c = Lt -> Ascii.compare a c = Lt.
Proof.
  unfold Ascii.compare. rewrite !N.compare_lt_iff. apply N.lt_trans.
Qed.

Lemma string_compare_refl (s : string) : String.compare s s = Eq.
Proof.
  induction s as [|a s IH]; simpl; [reflexivity|].
  now rewrite ascii_compare_refl.
Qed.

Lemma string_compare_lt_trans (a b c : string) :
  String.compare a b = Lt -> String.compare b c = Lt -> String.compare a c = Lt.
Proof.
  revert b c. induction a as [|x a IH]; intros [|y b] [|z c]; simpl;
    try discriminate; try reflexivity.
  destruct (Ascii.compare x y) eqn:Hxy; try discriminate;
    destruct (Ascii.compare y z) eqn:Hyz; try discriminate; intros H1 H2.
  - apply Ascii.compare_eq_iff in Hxy, Hyz. subst.
    rewrite ascii_compare_refl. eapply IH; eassumption.
  - apply Ascii.compare_eq_iff in Hxy. subst. now rewrite Hyz.
  - apply Ascii.compare_eq_iff in Hyz. subst. now rewrite Hxy.
  - now rewrite (ascii_compare_lt_trans _ _ _ Hxy Hyz).
Qed.

Lemma leb_iff (a b : string) :
  String.leb a b = true <-> String.compare a b = Lt \/ a = b.
Proof.
  unfold String.leb.
  destruct (String.compare a b) eqn:H; split; intros H'; auto; try discriminate.
  - right. now apply String.compare_eq_iff.
  - destruct H' as [H'|H']; [discriminate|].
    subst. rewrite string_compare_refl in H. discriminate.
Qed.

Lemma leb_trans (a b c : string) :
  Str.le a b -> Str.le b c -> Str.le a c.
Proof.
  unfold Str.le. rewrite !leb_iff.
  intros [H1| ->] [H2| ->]; auto.
  left. eapply string_compare_lt_trans; eassumption.
Qed.

Lemma le_neq_lt (a b : string) : Str.le a b -> a <> b -> str_lt a b.
Proof.
  unfold Str.le, str_lt, String.ltb. rewrite leb_iff.
  intros [H|H] Hne; [now rewrite H|contradiction].
Qed.

Lemma insert_sorted_perm (x : string) (l : list string) :
  Permutation (x :: l) (Str.insert_sorted x l).
Proof.
  induction l as [|y l IH]; simpl; [reflexivity|].
  destruct (String.leb x y); [reflexivity|].
  rewrite perm_swap. now apply perm_skip.
Qed.

Lemma sorted_perm (l : list string) : Permutation l (Str.sorted l).
Proof.
  induction l as [|x l IH]; simpl; [constructor|].
  rewrite <- insert_sorted_perm. now apply perm_skip.
Qed.

Lemma insert_sorted_sorted (x : string) (l : list string) :
  Sorted Str.le l -> Sorted Str.le (Str.insert_sorted x l).
Proof.
  induction l as [|y l IH]; simpl; intros Hs.
  - repeat constructor.
  - destruct (String.leb x y) eqn:Hxy.
    + constructor; [exact Hs|]. constructor. exact Hxy.
    + inversion Hs as [|? ? Hl Hhd]; subst.
      constructor; [now apply IH|].
      assert (Hyx : Str.le y x).
      { destruct (String.leb_total x y) as [H|H]; [congruence|exact H]. }
      destruct l as [|z l]; simpl.
      * constructor. exact Hyx.
      * destruct (String.leb x z); constructor; [exact Hyx|].
        now inversion Hhd.
Qed.

Lemma sorted_sorted (l : list string) : Sorted Str.le (Str.sorted l).
Proof.
  induction l as [|x l IH]; simpl; [constructor|].
  now apply insert_sorted_sorted.
Qed.

Lemma set_of_in (l : list string) (x : string) : In x (Str.set_of l) <-> In x l.
Proof.
  induction l as [|y l IH]; simpl; [tauto|].
  rewrite filter_In, negb_true_iff, String.eqb_neq, IH.
  destruct (string_dec y x); [tauto|]. split.
  - intros [H|[H _]]; auto.
  - intros [H|H]; auto.
Qed.

Lemma set_of_nodup (l : list string) : NoDup (Str.set_of l).
Proof.
  induction l as [|y l IH]; simpl; constructor.
  - rewrite filter_In, negb_true_iff, String.eqb_neq. tauto.
  - now apply NoDup_filter.
Qed.

(** Sorting a list without repetitions gives a strictly ascending
    list. *)
Lemma sorted_strict (l : list string) :
  NoDup l -> StronglySorted str_lt (Str.sorted l).
Proof.
  intros Hnd.
  assert (Hnd' : NoDup (Str.sorted l)).
  { eapply Permutation_NoDup; [apply sorted_perm|exact Hnd]. }
  assert (Hs : StronglySorted Str.le (Str.sorted l)).
  { apply Sorted_StronglySorted; [intros a b c; apply leb_trans|apply sorted_sorted]. }
  induction Hs as [|a r Hr IH Hall]; constructor.
  - apply IH. now inversion Hnd'.
  - inversion Hnd' as [|? ? Hnotin _]; subst.
    rewrite Forall_forall in *. intros y Hy.
    apply le_neq_lt; [now apply Hall|]. intros ->. contradiction.
Qed.

(** The normalised name servers: strictly ascending, and made of the
    stripped non-empty entries. *)
Lemma norm_name_servers_spec (entries : list string) :
  StronglySorted str_lt (norm_name_servers entries)
  /\ forall x, In x (norm_name_servers entries)
               <-> exists e, In e entries /\ e <> "" /\ x = Str.strip "." e.
Proof.
  unfold norm_name_servers. split.
  - apply sorted_strict, set_of_nodup.
  - intros x. split.
    + intros H. apply (Permutation_in _ (Permutation_sym (sorted_perm _))) in H.
      apply set_of_in, in_map_iff in H. destruct H as (e & <- & He).
      apply filter_In in He. destruct He as [He Ht].
      exists e. repeat split; [exact He|]. intros ->. discriminate Ht.
    + intros (e & He & Hne & ->).
      apply (Permutation_in _ (sorted_perm _)), set_of_in, in_map, filter_In.
      split; [exact He|]. destruct e; [contradiction|reflexivity].
Qed.

(** ** Dates *)










Section WhoisFacts.

Context {C : Collaborators}.

(** [fmt_date] never raises, and leaves the state as it was. *)
Lemma fmt_date_eq (d : date_attr) (st : state) :
  fmt_date d st = (Ret (fmt_date_value d), st).
Proof.
  destruct d as [|[dt|[|a s]]|[|x l]|[|x l]]; try reflexivity;
    destruct x as [dt|s]; reflexivity.
Qed.

(** What [whois_lookup] returns when the client returns an entry. *)
Lemma whois_lookup_success (domain : string) (st : state) (w : whois_entry) (w' : World) :
  whois_whois domain (world st) = (Ret w, w') ->
  whois_lookup domain st
  = (Ret (WhoisData
            {| domain_ := domain;
               registrar := getattr (e_registrar w) None;
               creation_date := fmt_date_value (getattr (e_creation_date w) DateNone);
               expiration_date := fmt_date_value (getattr (e_expiration_date w) DateNone);
               updated_date := fmt_date_value (getattr (e_updated_date w) DateNone);
               name_servers :=
                 norm_name_servers (safe_list (getattr (e_name_servers w) (StrsList [])));
               status := safe_list (getattr (e_status w) (StrsList []));
               raw := Str.take 2000 (text_str (getattr (e_text w) (TextStr ""))) |}),
     record_call (CallWhois domain) st w').
Proof.
  intros Hw.
  unfold whois_lookup, bind, try_except, call_whois. rewrite Hw. cbn [ret].
  rewrite !fmt_date_eq. reflexivity.
Qed.

End WhoisFacts.

(** ** The normalised WHOIS record *)

(** C4, as the code has it.  When the client returns an entry, the
    [name_servers] field is strictly ascending in the order on code
    points (so sorted and without repetitions); its members are exactly
    the client's non-empty entries with the dots at both ends removed
    (an entry made of dots only leaves the empty string as a member);
    nothing else is removed from an entry and its letters keep their
    case.  For the client value
    ["NS1.EXAMPLE.COM."; "ns2.example.com"; "ns1.example.com."] the
    field is ["NS1.EXAMPLE.COM"; "ns1.example.com"; "ns2.example.com"]. *)
Theorem whois_lookup_name_servers {C : Collaborators}
    (domain : string) (st : state) (w : whois_entry) (w' : World) :
  whois_whois domain (world st) = (Ret w, w') ->
  exists r : WhoisRecord,
    whois_lookup domain st = (Ret (WhoisData r), record_call (CallWhois domain) st w')
    /\ let entries := safe_list (getattr (e_name_servers w) (StrsList [])) in
       StronglySorted str_lt (name_servers r)
       /\ (forall x, In x (name_servers r)
                     <-> exists e, In e entries /\ e <> "" /\ x = Str.strip "." e)
       /\ (forall e, exists a b,
              e = a ++ Str.strip "." e ++ b
              /\ only "." a = true /\ only "." b = true
              /\ (forall c r, Str.strip "." e = String c r -> Str.mem c "." = false)
              /\ (forall r c, Str.strip "." e = r ++ String c "" -> Str.mem c "." = false))
       /\ (entries = ["NS1.EXAMPLE.COM."; "ns2.example.com"; "ns1.example.com."] ->
           name_servers r = ["NS1.EXAMPLE.COM"; "ns1.example.com"; "ns2.example.com"]).
Proof.
  intros Hw. eexists. split; [apply whois_lookup_success; exact Hw|].
  cbv zeta. cbn [name_servers].
  destruct (norm_name_servers_spec
              (safe_list (getattr (e_name_servers w) (StrsList []))))
    as [Hsorted Hmem].
  split; [exact Hsorted|]. split; [exact Hmem|].
  split; [intros e; apply strip_spec|].
  intros He. rewrite He. reflexivity.
Qed.

Lemma whois_lookup_name_servers_witness :
  @whois_whois Sample.collaborators "example.com" (world Sample.start)
    = (Ret Sample.entry, 1)
  /\ exists r : WhoisRecord,
       @whois_lookup Sample.collaborators "example.com" Sample.start
       = (Ret (WhoisData r), record_call (CallWhois "example.com") Sample.start 1)
       /\ let entries :=
            safe_list (getattr (e_name_servers Sample.entry) (StrsList [])) in
          StronglySorted str_lt (name_servers r)
          /\ (forall x, In x (name_servers r)
                        <-> exists e, In e entries /\ e <> "" /\ x = Str.strip "." e)
          /\ (forall e, exists a b,
                 e = a ++ Str.strip "." e ++ b
                 /\ only "." a = true /\ only "." b = true
                 /\ (forall c r, Str.strip "." e = String c r -> Str.mem c "." = false)
                 /\ (forall r c, Str.strip "." e = r ++ String c "" -> Str.mem c "." = false))
          /\ (entries = ["NS1.EXAMPLE.COM."; "ns2.example.com"; "ns1.example.com."] ->
              name_servers r = ["NS1.EXAMPLE.COM"; "ns1.example.com"; "ns2.example.com"]).
Proof.
  split; [reflexivity|].
  apply (@whois_lookup_name_servers Sample.collaborators "example.com"
           Sample.start Sample.entry 1).
  reflexivity.
Defined.

(** C4 as stated fails: for the client value of the specification's
    example the field has three members, one of them in upper case. *)
Lemma name_servers_keep_case :
  safe_list (getattr (e_name_servers Sample.entry) (StrsList []))
    = ["NS1.EXAMPLE.COM."; "ns2.example.com"; "ns1.example.com."]
  /\ exists (r : WhoisRecord) (st' : @state Sample.collaborators),
       whois_lookup "example.com" Sample.start = (Ret (WhoisData r), st')
       /\ name_servers r = ["NS1.EXAMPLE.COM"; "ns1.example.com"; "ns2.example.com"]
       /\ name_servers r <> ["ns1.example.com"; "ns2.example.com"]
       /\ In "NS1.EXAMPLE.COM" (name_servers r)
       /\ Str.lower "NS1.EXAMPLE.COM" <> "NS1.EXAMPLE.COM".
Proof.
  split; [reflexivity|].
  eexists. eexists. split; [reflexivity|].
  cbn [name_servers]. split; [reflexivity|].
  split; [discriminate|]. split; [left; reflexivity|discriminate].
Qed.



(** C10. Whenever [whois_lookup] returns, the dict has one of two
    shapes that exclude each other: the single key [error], or exactly
    the eight keys domain, registrar, creation_date, expiration_date,
    updated_date, name_servers, status, raw (and no [error] key), with
    the domain equal to the argument and a raw text of at most 2000
    characters.  It returns unless the client raised an exception that
    is not an [Exception], which goes through. *)
Theorem whois_lookup_shapes {C : Collaborators} (domain : string) (st : state) :
  (exists (r : whois_dict) (st' : state),
      whois_lookup domain st = (Ret r, st')
      /\ (dict_keys (whois_items r) = ["error"]
          \/ (dict_keys (whois_items r) = whois_keys
              /\ ~ In "error" (dict_keys (whois_items r))
              /\ dict_get (whois_items r) "domain" = Some (PyStr domain)
              /\ exists s, dict_get (whois_items r) "raw" = Some (PyStr s)
                           /\ String.length s <= 2000))
      /\ ~ (dict_keys (whois_items r) = ["error"]
            /\ dict_keys (whois_items r) = whois_keys))
  \/ (exists (e : exc) (st' : state),
         whois_lookup domain st = (Raise e, st')
         /\ isinstance e Exception = false
         /\ whois_whois domain (world st) = (Raise e, world st')).
Proof.
  destruct (whois_whois domain (world st)) as [[w|e] w'] eqn:Hw.
  - left. eexists. eexists. split; [apply whois_lookup_success; exact Hw|].
    split.
    + right. split; [reflexivity|]. split.
      * cbn. intros H. repeat (destruct H as [H|H]; [discriminate H|]). exact H.
      * split; [reflexivity|]. eexists. split; [reflexivity|apply length_take].
    + intros [H _]. discriminate H.
  - destruct (isinstance e Exception) eqn:He.
    + left. eexists. eexists.
      split; [apply whois_lookup_dispatch; eassumption|]. split.
      * left. reflexivity.
      * intros [_ H]. discriminate H.
    + right. exists e. eexists. split; [apply whois_lookup_propagates; eassumption|].
      split; [exact He|reflexivity].
Qed.

(** ** CSV export *)

Lemma strings_of_map (l : list string) : strings_of (map PyStr l) = l.
Proof. induction l as [|x l IH]; simpl; [reflexivity|now rewrite IH]. Qed.

Lemma append_values_eq (rt : string) (vals : list string)
    (rows : list (list (option string))) :
  @append_values rt vals rows
  = (rows ++ map (fun v => [Some "DNS"; Some rt; Some v]) vals)%list.
Proof.
  unfold append_values. revert rows.
  induction vals as [|v vals IH]; intros rows; simpl.
  - now rewrite app_nil_r.
  - rewrite IH, <- app_assoc. reflexivity.
Qed.

Lemma dns_rows_fold (items : dict (list string)) (rows : list (list (option string))) :
  fold_left
    (fun rows item =>
       match snd item with
       | [] => (rows ++ [[Some "DNS"; Some (fst item); Some "-"]])%list
       | _ :: _ => append_values (fst item) (snd item) rows
       end)
    items rows
  = (rows ++ flat_map csv_dns_section items)%list.
Proof.
  revert rows. induction items as [|[rt vals] items IH]; intros rows; simpl.
  - now rewrite app_nil_r.
  - rewrite IH. unfold csv_dns_section at 2. simpl.
    destruct vals as [|v vals].
    + now rewrite <- app_assoc.
    + now rewrite append_values_eq, <- app_assoc.
Qed.

Lemma csv_whois_section_eq (w : whois_dict) :
  csv_whois_section w
  = match w with
    | WhoisError e => [[Some "WHOIS"; Some "error"; Some e]]
    | WhoisData r =>
        [ [Some "WHOIS"; Some "domain"; Some (domain_ r)];
          [Some "WHOIS"; Some "registrar"; registrar r];
          [Some "WHOIS"; Some "creation_date"; creation_date r];
          [Some "WHOIS"; Some "updated_date"; updated_date r];
          [Some "WHOIS"; Some "expiration_date"; expiration_date r];
          [Some "WHOIS"; Some "name_servers"; Some (Str.join ";" (name_servers r))];
          [Some "WHOIS"; Some "status"; Some (Str.join ";" (status r))] ]
    end.
Proof.
  destruct w as [e|r]; [reflexivity|].
  unfold csv_whois_section. cbn. unfold py_strs. rewrite !strings_of_map.
  destruct (registrar r), (creation_date r), (updated_date r), (expiration_date r);
    reflexivity.
Qed.

(** C6. The rows that [to_csv] writes are: the header row
    Section,Key,Value; the WHOIS rows (the single row WHOIS,error,message
    when the dict has an [error] key, else the seven rows for domain,
    registrar, creation_date, updated_date, expiration_date,
    name_servers and status, the last two joined with semicolons); then,
    for each DNS record type in the order of the dict, the row
    DNS,type,- when its list is empty and one row DNS,type,value per
    value otherwise.  These rows are what is written to the path, as
    CSV text.  An item A with the list ["1.2.3.4"] gives the row
    DNS,A,1.2.3.4 and an item MX with the empty list gives the row
    DNS,MX,-. *)
Theorem to_csv_row_sequence {C : Collaborators} (data : ReconResult) :
  to_csv_rows data
  = (csv_header :: csv_whois_section (r_whois data)
       ++ flat_map csv_dns_section (r_dns data))%list
  /\ (forall path st,
        to_csv data path st
        = call_write path (Csv.writerows (to_csv_rows data)) st)
  /\ (In ("A", ["1.2.3.4"]) (r_dns data) ->
      In [Some "DNS"; Some "A"; Some "1.2.3.4"] (to_csv_rows data))
  /\ (In ("MX", []) (r_dns data) ->
      In [Some "DNS"; Some "MX"; Some "-"] (to_csv_rows data))
  /\ Csv.writerow [Some "DNS"; Some "A"; Some "1.2.3.4"] = "DNS,A,1.2.3.4" ++ Csv.CRLF
  /\ Csv.writerow [Some "DNS"; Some "MX"; Some "-"] = "DNS,MX,-" ++ Csv.CRLF
  /\ Csv.writerow csv_header = "Section,Key,Value" ++ Csv.CRLF.
Proof.
  assert (Hrows : to_csv_rows data
                  = (csv_header :: csv_whois_section (r_whois data)
                       ++ flat_map csv_dns_section (r_dns data))%list).
  { unfold to_csv_rows. rewrite dns_rows_fold, csv_whois_section_eq.
    destruct (r_whois data); reflexivity. }
  split; [exact Hrows|]. split; [reflexivity|].
  split; [|split].
  - intros Hin. rewrite Hrows. right. apply in_or_app. right.
    apply in_flat_map. exists ("A", ["1.2.3.4"]). split; [exact Hin|].
    left. reflexivity.
  - intros Hin. rewrite Hrows. right. apply in_or_app. right.
    apply in_flat_map. exists ("MX", []). split; [exact Hin|].
    left. reflexivity.
  - repeat split.
Qed.

(** The rows and the text for a result with A = ["1.2.3.4"] and
    MX = []. *)
Example to_csv_sample :
  Csv.writerows (to_csv_rows Sample.result_ok)
  = "Section,Key,Value" ++ Csv.CRLF
    ++ "WHOIS,domain,example.com" ++ Csv.CRLF
    ++ "WHOIS,registrar," ++ Csv.CRLF
    ++ "WHOIS,creation_date,1995-08-14 04:00:00" ++ Csv.CRLF
    ++ "WHOIS,updated_date," ++ Csv.CRLF
    ++ "WHOIS,expiration_date," ++ Csv.CRLF
    ++ "WHOIS,name_servers,a.iana-servers.net;b.iana-servers.net" ++ Csv.CRLF
    ++ "WHOIS,status,clientDeleteProhibited;clientTransferProhibited" ++ Csv.CRLF
    ++ "DNS,A,1.2.3.4" ++ Csv.CRLF
    ++ "DNS,MX,-" ++ Csv.CRLF
    ++ "DNS,TXT,v=spf1 -all" ++ Csv.CRLF
    ++ "DNS,TXT," ++ String Json.dquote ("a,b" ++ String Json.dquote Csv.CRLF).
Proof. reflexivity. Qed.

(** ** The run *)

Section RunFacts.

Context {C : Collaborators}.

Lemma whois_lookup_eq (domain : string) (st : state) :
  whois_contract ->
  whois_lookup domain st = (Ret (whois_answer domain st), after_whois domain st).
Proof.
  intros Hc. unfold whois_answer, after_whois.
  destruct (whois_whois domain (world st)) as [[w|e] w'] eqn:Hw.
  - apply whois_lookup_success. exact Hw.
  - apply whois_lookup_dispatch; [exact Hw|]. apply (Hc _ _ _ _ Hw).
Qed.


Lemma print_whois_eq (w : whois_dict) (st : state) :
  print_whois w st = (Ret tt, after_print (whois_view w) st).
Proof. destruct w; reflexivity. Qed.



Lemma call_utcnow_eq (st : state) :
  call_utcnow st = (Ret (fst (datetime_utcnow (world st))), after_utcnow st).
Proof.
  unfold call_utcnow, after_utcnow.
  destruct (datetime_utcnow (world st)); reflexivity.
Qed.




End RunFacts.





(** ** JSON: decoding what was encoded *)

Module JsonFacts.

Import Json.

Lemma pyval_induction (P : pyval -> Prop) :
  P PyNone ->
  (forall s, P (PyStr s)) ->
  (forall l, Forall P l -> P (PyList l)) ->
  (forall items, Forall (fun kv => P (snd kv)) items -> P (PyDict items)) ->
  forall v, P v.
Proof.
  intros HN HS HL HD. fix IH 1. intros [|s|l|items].
  - exact HN.
  - apply HS.
  - apply HL. revert l. fix IHl 1. intros [|x l]; constructor; [apply IH|apply IHl].
  - apply HD. revert items. fix IHl 1.
    intros [|kv items]; constructor; [apply IH|apply IHl].
Qed.

Lemma decode_escape_char (c : ascii) (tail : string) :
  decode_string (escape_char c ++ tail) = cons_char c (decode_string tail).
Proof.
  destruct c as [[] [] [] [] [] [] [] []]; reflexivity.
Qed.

Lemma decode_escape (s tail : string) :
  decode_string (escape s ++ String dquote tail) = Some (s, tail).
Proof.
  induction s as [|c s IH]; [reflexivity|].
  cbn [escape]. rewrite append_assoc, decode_escape_char, IH. reflexivity.
Qed.

Lemma decode_encoded_string (s tail : string) :
  decode_string (escape s ++ String dquote "" ++ tail) = Some (s, tail).
Proof. apply decode_escape. Qed.

Lemma skip_ws_spaces (n : nat) (s : string) : skip_ws (spaces n ++ s) = skip_ws s.
Proof. induction n as [|n IH]; [reflexivity|exact IH]. Qed.

Lemma skip_ws_newline_indent (level : nat) (s : string) :
  skip_ws (newline_indent level ++ s) = skip_ws s.
Proof. unfold newline_indent. rewrite append_assoc. cbn. apply skip_ws_spaces. Qed.

Lemma encode_opens (level : nat) (v : pyval) (rest : string) :
  opens_value (encode level v ++ rest).
Proof.
  destruct v as [|s|[|x l]|[|kv items]]; cbn [encode];
    eexists; eexists; (split; [reflexivity|]); auto.
Qed.

Lemma decode_value_indent (fuel level : nat) (s : string) :
  decode_value fuel (newline_indent level ++ s) = decode_value fuel s.
Proof.
  destruct fuel; [reflexivity|]. cbn [decode_value].
  now rewrite skip_ws_newline_indent.
Qed.

Lemma decode_value_space (fuel : nat) (s : string) :
  decode_value fuel (String " " s) = decode_value fuel s.
Proof. destruct fuel; reflexivity. Qed.

Lemma skip_ws_opens (s : string) : opens_value s -> skip_ws s = s.
Proof. intros (c & r & -> & [-> | [-> | [-> | ->]]]); reflexivity. Qed.

Lemma concat_cons2 (sep a b : string) (l : list string) :
  String.concat sep (a :: b :: l) = a ++ sep ++ String.concat sep (b :: l).
Proof. reflexivity. Qed.

Lemma concat_map_cons2 {A : Type} (f : A -> string) (sep : string) (a b : A) (l : list A) :
  String.concat sep (map f (a :: b :: l))
  = f a ++ sep ++ String.concat sep (map f (b :: l)).
Proof. reflexivity. Qed.

(** The text of a non-empty list of items starts with its first item. *)
Lemma concat_map_head {A : Type} (f : A -> string) (sep : string) (a : A) (l : list A) :
  exists tail, String.concat sep (map f (a :: l)) = f a ++ tail.
Proof.
  destruct l as [|b l].
  - exists "". simpl. now rewrite append_nil_r.
  - eexists. apply concat_map_cons2.
Qed.

Lemma decode_elements_more (fuel : nat) (s r : string) (v : pyval) :
  decode_value fuel s = Some (v, String "," r) ->
  decode_elements (S fuel) s
  = match decode_elements fuel r with
    | Some (l, r') => Some (v :: l, r')
    | None => None
    end.
Proof. intros H. cbn [decode_elements]. rewrite H. reflexivity. Qed.

Lemma decode_elements_last (fuel level : nat) (s r : string) (v : pyval) :
  decode_value fuel s = Some (v, newline_indent level ++ String "]" r) ->
  decode_elements (S fuel) s = Some ([v], r).
Proof.
  intros H. cbn [decode_elements]. rewrite H, skip_ws_newline_indent. reflexivity.
Qed.

Lemma decode_elements_encoded (l : list pyval) :
  Forall decodes l -> l <> [] ->
  forall fuel level rest,
    fold_right (fun x n => S (weight x + n)) 0 l <= fuel ->
    decode_elements fuel
      (newline_indent (S level)
       ++ String.concat ("," ++ newline_indent (S level)) (map (encode (S level)) l)
       ++ newline_indent level ++ "]" ++ rest)
    = Some (l, rest).
Proof.
  induction 1 as [|x l Hx Hl IH]; [congruence|]. intros _ fuel level rest Hfuel.
  cbn [fold_right] in Hfuel. destruct fuel as [|fuel]; [lia|].
  destruct l as [|y l].
  - apply decode_elements_last with (level := level).
    rewrite decode_value_indent. cbn [map String.concat]. apply Hx. lia.
  - rewrite decode_elements_more
      with (v := x)
           (r := newline_indent (S level)
                 ++ String.concat ("," ++ newline_indent (S level))
                      (map (encode (S level)) (y :: l))
                 ++ newline_indent level ++ "]" ++ rest).
    + rewrite IH; [reflexivity|discriminate|lia].
    + rewrite decode_value_indent. change (map (encode (S level)) (x :: y :: l))
        with (encode (S level) x :: encode (S level) y :: map (encode (S level)) l).
      rewrite concat_cons2, !append_assoc. apply Hx. lia.
Qed.

Lemma decode_members_step (fuel level : nat) (k tail : string) :
  decode_members (S fuel) (newline_indent level ++ encode_string k ++ ": " ++ tail)
  = match decode_value fuel tail with
    | Some (v, r3) =>
        match skip_ws r3 with
        | String "," r4 =>
            match decode_members fuel r4 with
            | Some (l, r5) => Some ((k, v) :: l, r5)
            | None => None
            end
        | String "}" r4 => Some ([(k, v)], r4)
        | _ => None
        end
    | None => None
    end.
Proof.
  cbn [decode_members]. rewrite skip_ws_newline_indent.
  unfold encode_string.
  change (skip_ws (String dquote (escape k ++ String dquote "") ++ ": " ++ tail))
    with (String dquote ((escape k ++ String dquote "") ++ ": " ++ tail)).
  cbv iota beta. change (Ascii.eqb dquote dquote) with true. cbv iota.
  rewrite append_assoc, decode_encoded_string.
  change (skip_ws (": " ++ tail)) with (String ":" (String " " tail)).
  cbv iota beta. rewrite decode_value_space. reflexivity.
Qed.

Lemma decode_members_encoded (items : list (string * pyval)) :
  Forall (fun kv => decodes (snd kv)) items -> items <> [] ->
  forall fuel level rest,
    fold_right (fun kv n => S (weight (snd kv) + n)) 0 items <= fuel ->
    decode_members fuel
      (newline_indent (S level)
       ++ String.concat ("," ++ newline_indent (S level))
            (map (fun kv => encode_string (fst kv) ++ ": " ++ encode (S level) (snd kv))
                 items)
       ++ newline_indent level ++ "}" ++ rest)
    = Some (items, rest).
Proof.
  induction 1 as [|[k x] items Hx Hl IH]; [congruence|].
  intros _ fuel level rest Hfuel.
  cbn [fold_right snd] in Hfuel. destruct fuel as [|fuel]; [lia|].
  cbn [snd] in Hx.
  destruct items as [|kv items].
  - cbn [map String.concat fst snd]. rewrite !append_assoc.
    rewrite decode_members_step, Hx by lia.
    rewrite skip_ws_newline_indent. reflexivity.
  - rewrite concat_map_cons2. cbv beta. cbn [fst snd]. rewrite !append_assoc.
    rewrite decode_members_step, Hx by lia.
    change (skip_ws ("," ++ ?s)) with (String "," s).
    cbv iota beta. rewrite IH; [reflexivity|discriminate|lia].
Qed.

Lemma dict_set_fresh {V : Type} (d : dict V) (k : string) (v : V) :
  ~ In k (map fst d) -> dict_set d k v = (d ++ [(k, v)])%list.
Proof.
  induction d as [|[k' v'] d IH]; simpl; intros Hk; [reflexivity|].
  destruct (String.eqb_spec k' k) as [->|Hne]; [tauto|].
  rewrite IH by tauto. reflexivity.
Qed.

Lemma dict_of_pairs_fold (items acc : list (string * pyval)) :
  NoDup (map fst (acc ++ items)) ->
  fold_left (fun d kv => dict_set d (fst kv) (snd kv)) items acc = (acc ++ items)%list.
Proof.
  revert acc. induction items as [|[k v] items IH]; intros acc Hnd; simpl.
  - now rewrite app_nil_r.
  - rewrite dict_set_fresh.
    + rewrite IH; rewrite <- app_assoc; [reflexivity|exact Hnd].
    + rewrite map_app in Hnd. simpl in Hnd.
      apply NoDup_remove_2 in Hnd. intros Hin. apply Hnd.
      apply in_or_app. left. exact Hin.
Qed.

Lemma dict_of_pairs_nodup (items : list (string * pyval)) :
  NoDup (map fst items) -> dict_of_pairs items = items.
Proof. intros H. unfold dict_of_pairs. now rewrite dict_of_pairs_fold. Qed.

Lemma decode_value_array (fuel : nat) (r : string) :
  opens_value (skip_ws r) ->
  decode_value (S fuel) (String "[" r)
  = match decode_elements fuel r with
    | Some (l, r') => Some (PyList l, r')
    | None => None
    end.
Proof.
  intros (c & r0 & Hr & Hc). cbn [decode_value].
  change (skip_ws (String "[" r)) with (String "[" r). cbv iota beta.
  change (Ascii.eqb "[" "n") with false. change (Ascii.eqb "[" dquote) with false.
  change (Ascii.eqb "[" "[") with true. cbv iota. rewrite Hr.
  destruct Hc as [-> | [-> | [-> | ->]]]; reflexivity.
Qed.

Lemma decode_value_object (fuel : nat) (r : string) :
  opens_value (skip_ws r) ->
  decode_value (S fuel) (String "{" r)
  = match decode_members fuel r with
    | Some (pairs, r') => Some (PyDict (dict_of_pairs pairs), r')
    | None => None
    end.
Proof.
  intros (c & r0 & Hr & Hc). cbn [decode_value].
  change (skip_ws (String "{" r)) with (String "{" r). cbv iota beta.
  change (Ascii.eqb "{" "n") with false. change (Ascii.eqb "{" dquote) with false.
  change (Ascii.eqb "{" "[") with false. change (Ascii.eqb "{" "{") with true.
  cbv iota. rewrite Hr.
  destruct Hc as [-> | [-> | [-> | ->]]]; reflexivity.
Qed.

Lemma wf_list (l : list pyval) :
  fold_right (fun x rest => py_wf x /\ rest) True l -> Forall py_wf l.
Proof. induction l as [|x l IH]; simpl; intros H; constructor; tauto. Qed.

Lemma wf_items (items : list (string * pyval)) :
  fold_right (fun kv rest => py_wf (snd kv) /\ rest) True items ->
  Forall (fun kv => py_wf (snd kv)) items.
Proof. induction items as [|x l IH]; simpl; intros H; constructor; tauto. Qed.

Lemma Forall_mp {A : Type} (P Q : A -> Prop) (l : list A) :
  Forall (fun x => P x -> Q x) l -> Forall P l -> Forall Q l.
Proof.
  induction 1 as [|x l H _ IH]; intros HP; inversion HP; subst; constructor; auto.
Qed.

(** Decoding the text of a well-formed value gives the value back. *)
Lemma decode_encode (v : pyval) : py_wf v -> decodes v.
Proof.
  induction v as [|s|l IH|items IH] using pyval_induction; intros Hwf.
  - intros [|fuel] level rest Hf; [simpl in Hf; lia|reflexivity].
  - intros [|fuel] level rest Hf; [simpl in Hf; lia|].
    cbn [encode]. unfold encode_string. cbn [append].
    rewrite append_assoc. cbn [decode_value].
    change (skip_ws (String dquote ?s)) with (String dquote s). cbv iota beta.
    change (Ascii.eqb dquote "n") with false.
    change (Ascii.eqb dquote dquote) with true. cbv iota.
    rewrite decode_encoded_string. reflexivity.
  - cbn [py_wf] in Hwf. apply wf_list in Hwf.
    pose proof (@Forall_mp _ py_wf decodes l IH Hwf) as Hdec.
    intros [|fuel] level rest Hf; [simpl in Hf; lia|].
    destruct l as [|x l]; [reflexivity|].
    cbn [encode]. cbn [weight] in Hf.
    change ("[" ++ ?s) with (String "[" s). cbn [append]. rewrite !append_assoc.
    rewrite decode_value_array.
    + rewrite decode_elements_encoded; [reflexivity|exact Hdec|discriminate|lia].
    + rewrite skip_ws_newline_indent.
      match goal with
      | |- context [String.concat ?sep (map ?f (?a :: ?r))] =>
          destruct (concat_map_head f sep a r) as [tail Ht]; rewrite Ht
      end.
      rewrite append_assoc. rewrite skip_ws_opens; apply encode_opens.
  - cbn [py_wf] in Hwf. destruct Hwf as [Hnd Hwf]. apply wf_items in Hwf.
    pose proof (@Forall_mp _ (fun kv => py_wf (snd kv)) (fun kv => decodes (snd kv))
                           items IH Hwf) as Hdec.
    intros [|fuel] level rest Hf; [simpl in Hf; lia|].
    destruct items as [|kv items]; [reflexivity|].
    cbn [encode]. cbn [weight] in Hf.
    cbn [append]. rewrite !append_assoc.
    rewrite decode_value_object.
    + rewrite decode_members_encoded; [|exact Hdec|discriminate|lia].
      now rewrite dict_of_pairs_nodup.
    + rewrite skip_ws_newline_indent.
      match goal with
      | |- context [String.concat ?sep (map ?f (?a :: ?r))] =>
          destruct (concat_map_head f sep a r) as [tail Ht]; rewrite Ht
      end.
      unfold encode_string. cbn [append].
      change (skip_ws (String dquote ?s)) with (String dquote s).
      eexists. eexists. split; [reflexivity|auto].
Qed.


Lemma length_concat_weight {A : Type} (w : A -> nat) (f : A -> string)
    (sep : string) (l : list A) :
  Forall (fun x => w x <= String.length (f x)) l ->
  1 <= String.length sep ->
  fold_right (fun x n => S (w x + n)) 0 l
  <= String.length (String.concat sep (map f l)) + 1.
Proof.
  intros Hl Hsep. induction Hl as [|x l Hx Hl IH]; [simpl; lia|].
  destruct l as [|y l].
  - simpl. lia.
  - rewrite concat_map_cons2, !length_append.
    change (fold_right (fun x n => S (w x + n)) 0 (x :: y :: l))
      with (S (w x + fold_right (fun x n => S (w x + n)) 0 (y :: l))).
    lia.
Qed.

Lemma length_newline_indent (level : nat) : 1 <= String.length (newline_indent level).
Proof. unfold newline_indent. simpl. lia. Qed.

(** The text of a value is at least as long as the fuel it takes. *)
Lemma weight_le_length (v : pyval) (level : nat) :
  weight v <= String.length (encode level v).
Proof.
  revert level.
  induction v as [|s|l IH|items IH] using pyval_induction; intros level.
  - simpl. lia.
  - simpl. lia.
  - destruct l as [|x l]; [simpl; lia|].
    cbn [encode weight]. rewrite !length_append.
    pose proof (length_newline_indent (S level)).
    pose proof (length_newline_indent level).
    assert (Hc : fold_right (fun x n => S (weight x + n)) 0 (x :: l)
                 <= String.length
                      (String.concat ("," ++ newline_indent (S level))
                         (map (encode (S level)) (x :: l))) + 1).
    { apply length_concat_weight.
      - eapply Forall_impl; [|exact IH]. intros a Ha. apply Ha.
      - simpl. lia. }
    simpl String.length at 1. lia.
  - destruct items as [|kv items]; [simpl; lia|].
    cbn [encode weight]. rewrite !length_append.
    pose proof (length_newline_indent (S level)).
    pose proof (length_newline_indent level).
    assert (Hc : fold_right (fun kv n => S (weight (snd kv) + n)) 0 (kv :: items)
                 <= String.length
                      (String.concat ("," ++ newline_indent (S level))
                         (map (fun kv => encode_string (fst kv) ++ ": "
                                         ++ encode (S level) (snd kv))
                              (kv :: items))) + 1).
    { apply (length_concat_weight (fun kv => weight (snd kv))).
      - eapply Forall_impl; [|exact IH]. intros a Ha. cbv beta.
        rewrite !length_append. specialize (Ha (S level)). lia.
      - simpl. lia. }
    simpl String.length at 1. lia.
Qed.

(** Round trip: [loads] undoes [dumps] on every well-formed value. *)
Lemma loads_dumps (v : pyval) : py_wf v -> loads (dumps v) = Some v.
Proof.
  intros Hwf. unfold loads, dumps.
  pose proof (weight_le_length v 0) as Hlen.
  pose proof (@decode_encode v Hwf (S (String.length (encode 0 v))) 0 ""
                ltac:(lia)) as H.
  rewrite append_nil_r in H. rewrite H. reflexivity.
Qed.

End JsonFacts.

(** ** JSON export *)

Lemma py_strs_wf (l : list string) : py_wf (py_strs l).
Proof. unfold py_strs. induction l as [|x l IH]; simpl; auto. Qed.

Lemma py_opt_wf (x : option string) : py_wf (py_opt x).
Proof. destruct x; exact I. Qed.

Lemma nodup_strings (l : list string) : all_different l = true -> NoDup l.
Proof.
  induction l as [|x l IH]; simpl; intros H; constructor.
  - apply andb_prop in H. destruct H as [H _]. apply negb_true_iff in H.
    intros Hin. assert (Hex : existsb (String.eqb x) l = true).
    { apply existsb_exists. exists x. split; [exact Hin|apply String.eqb_refl]. }
    congruence.
  - apply IH. apply andb_prop in H. tauto.
Qed.

Lemma py_of_whois_wf (w : whois_dict) : py_wf (py_of_whois w).
Proof.
  destruct w as [e|r]; cbn [py_of_whois whois_items py_wf map fst snd fold_right].
  - split; [apply nodup_strings; reflexivity|auto].
  - split; [apply nodup_strings; reflexivity|].
    split; [exact I|]. do 4 (split; [apply py_opt_wf|]).
    do 2 (split; [apply py_strs_wf|]). split; exact I.
Qed.

Lemma py_of_dns_wf (d : dict (list string)) :
  NoDup (dict_keys d) -> py_wf (py_of_dns d).
Proof.
  intros Hnd. unfold py_of_dns. cbn [py_wf]. split.
  - rewrite map_map. cbn [fst]. exact Hnd.
  - clear Hnd. induction d as [|[k v] d IH]; simpl; [exact I|].
    split; [apply py_strs_wf|exact IH].
Qed.

Lemma py_of_result_wf (data : ReconResult) :
  NoDup (dict_keys (r_dns data)) -> py_wf (py_of_result data).
Proof.
  intros Hnd. cbn [py_of_result py_wf map fst snd fold_right].
  split; [apply nodup_strings; reflexivity|].
  split; [exact I|]. split; [apply py_of_whois_wf|].
  split; [apply py_of_dns_wf; exact Hnd|]. split; exact I.
Qed.


(** C9. The text that [to_json] writes for a result (a dict, so with
    each DNS key once) parses back to a dict whose [domain], [whois]
    and [dns] values, and the time stamp too, are those of the result. *)
Theorem to_json_round_trip {C : Collaborators} (data : ReconResult) :
  NoDup (dict_keys (r_dns data)) ->
  (forall path st,
      to_json data path st = call_write path (Json.dumps (py_of_result data)) st)
  /\ exists items : dict pyval,
       Json.loads (Json.dumps (py_of_result data)) = Some (PyDict items)
       /\ dict_keys items = ["domain"; "whois"; "dns"; "timestamp_utc"]
       /\ dict_get items "domain" = Some (PyStr (r_domain data))
       /\ dict_get items "whois" = Some (py_of_whois (r_whois data))
       /\ dict_get items "dns" = Some (py_of_dns (r_dns data))
       /\ dict_get items "timestamp_utc" = Some (PyStr (r_timestamp_utc data)).
Proof.
  intros Hnd. split; [reflexivity|].
  eexists. split.
  - rewrite JsonFacts.loads_dumps by (apply py_of_result_wf; exact Hnd).
    reflexivity.
  - repeat split.
Qed.

Lemma to_json_round_trip_witness :
  NoDup (dict_keys (r_dns Sample.result_ok))
  /\ (forall path (st : @state Sample.collaborators),
         to_json Sample.result_ok path st
         = call_write path (Json.dumps (py_of_result Sample.result_ok)) st)
  /\ exists items : dict pyval,
       Json.loads (Json.dumps (py_of_result Sample.result_ok)) = Some (PyDict items)
       /\ dict_keys items = ["domain"; "whois"; "dns"; "timestamp_utc"]
       /\ dict_get items "domain" = Some (PyStr (r_domain Sample.result_ok))
       /\ dict_get items "whois" = Some (py_of_whois (r_whois Sample.result_ok))
       /\ dict_get items "dns" = Some (py_of_dns (r_dns Sample.result_ok))
       /\ dict_get items "timestamp_utc"
          = Some (PyStr (r_timestamp_utc Sample.result_ok)).
Proof.
  assert (H : NoDup (dict_keys (r_dns Sample.result_ok))).
  { apply nodup_strings. reflexivity. }
  split; [exact H|].
  apply (@to_json_round_trip Sample.collaborators Sample.result_ok H).
Defined.

(** The round trip, run: the JSON text of the sample result, parsed. *)
Example loads_dumps_sample :
  Json.loads (Json.dumps (py_of_result Sample.result_ok))
  = Some (py_of_result Sample.result_ok).
Proof. vm_compute. reflexivity. Qed.

(* ================================================================== *)
(** * Further properties of the program *)
(* ================================================================== *)

(** ** Normalisation: the edges of [name_servers] and [raw] *)

Lemma lstrip_only (chars s : string) :
  only chars s = true -> Str.lstrip chars s = "".
Proof.
  induction s as [|a s IH]; simpl; [reflexivity|].
  intros H. apply andb_prop in H. destruct H as [Ha Hs].
  rewrite Ha. auto.
Qed.

(** Stripping leaves nothing exactly when the string is made of the
    stripped characters. *)
Lemma strip_empty_iff (chars s : string) :
  Str.strip chars s = "" <-> only chars s = true.
Proof.
  split.
  - intros He. destruct (strip_spec chars s) as (a & b & Hs & Ha & Hb & _).
    rewrite He in Hs. rewrite Hs. simpl. rewrite only_append, Ha, Hb. reflexivity.
  - intros Ho. unfold Str.strip. rewrite lstrip_only by exact Ho. reflexivity.
Qed.

(** The empty string is among the normalised name servers exactly when
    the client gave a non-empty entry made of dots only: the test for
    empty entries comes before the stripping, not after it. *)
Theorem whois_lookup_name_servers_empty_member {C : Collaborators}
    (domain : string) (st : state) (w : whois_entry) (w' : World) :
  whois_whois domain (world st) = (Ret w, w') ->
  exists r : WhoisRecord,
    whois_lookup domain st = (Ret (WhoisData r), record_call (CallWhois domain) st w')
    /\ (In "" (name_servers r)
        <-> exists e, In e (safe_list (getattr (e_name_servers w) (StrsList [])))
                      /\ e <> "" /\ only "." e = true).
Proof.
  intros Hw. eexists. split; [apply whois_lookup_success; exact Hw|].
  cbn [name_servers].
  destruct (norm_name_servers_spec
              (safe_list (getattr (e_name_servers w) (StrsList []))))
    as [_ Hmem].
  rewrite Hmem. split.
  - intros (e & He & Hne & Hs). exists e. repeat split; try assumption.
    apply strip_empty_iff. symmetry. exact Hs.
  - intros (e & He & Hne & Ho). exists e. repeat split; try assumption.
    symmetry. apply strip_empty_iff. exact Ho.
Qed.

Lemma whois_lookup_name_servers_empty_member_witness :
  @whois_whois Sample.collaborators "example.com" (world Sample.start)
    = (Ret Sample.entry, 1)
  /\ exists r : WhoisRecord,
       @whois_lookup Sample.collaborators "example.com" Sample.start
       = (Ret (WhoisData r), record_call (CallWhois "example.com") Sample.start 1)
       /\ (In "" (name_servers r)
           <-> exists e,
                 In e (safe_list (getattr (e_name_servers Sample.entry) (StrsList [])))
                 /\ e <> "" /\ only "." e = true).
Proof.
  split; [reflexivity|].
  apply (@whois_lookup_name_servers_empty_member Sample.collaborators "example.com"
           Sample.start Sample.entry 1).
  reflexivity.
Defined.

Lemma take_prefix (n : nat) (s : string) : exists rest, s = Str.take n s ++ rest.
Proof.
  unfold Str.take. revert s. induction n as [|n IH]; intros [|a s]; simpl.
  - exists "". reflexivity.
  - exists (String a s). reflexivity.
  - exists "". reflexivity.
  - destruct (IH s) as [rest Hrest]. exists rest. now rewrite <- Hrest.
Qed.

Lemma length_take_min (n : nat) (s : string) :
  String.length (Str.take n s) = Nat.min n (String.length s).
Proof.
  unfold Str.take. revert s. induction n as [|n IH]; intros [|a s]; simpl;
    try reflexivity.
  now rewrite IH.
Qed.

Lemma take_all (n : nat) (s : string) : String.length s <= n -> Str.take n s = s.
Proof.
  unfold Str.take. revert s. induction n as [|n IH]; intros [|a s]; simpl;
    intros H; try reflexivity; try lia.
  rewrite IH by lia. reflexivity.
Qed.

(** The [raw] field is the first 2000 characters of the string form of
    the client's text: a prefix of it, the whole of it when it has at
    most 2000 characters; it is empty when the attribute is missing, and
    the four letters None when the attribute is [None]. *)
Theorem whois_lookup_raw {C : Collaborators}
    (domain : string) (st : state) (w : whois_entry) (w' : World) :
  whois_whois domain (world st) = (Ret w, w') ->
  exists r : WhoisRecord,
    whois_lookup domain st = (Ret (WhoisData r), record_call (CallWhois domain) st w')
    /\ (exists rest, text_str (getattr (e_text w) (TextStr "")) = raw r ++ rest)
    /\ String.length (raw r)
       = Nat.min 2000 (String.length (text_str (getattr (e_text w) (TextStr ""))))
    /\ (forall t, e_text w = Some (TextStr t) -> String.length t <= 2000 -> raw r = t)
    /\ (e_text w = None -> raw r = "")
    /\ (e_text w = Some TextNone -> raw r = "None").
Proof.
  intros Hw. eexists. split; [apply whois_lookup_success; exact Hw|].
  cbn [raw]. split; [apply take_prefix|]. split; [apply length_take_min|].
  split; [|split].
  - intros t Ht Hlen. rewrite Ht. cbn [getattr text_str]. apply take_all. exact Hlen.
  - intros Ht. rewrite Ht. reflexivity.
  - intros Ht. rewrite Ht. reflexivity.
Qed.

Lemma whois_lookup_raw_witness :
  @whois_whois Sample.collaborators "example.com" (world Sample.start)
    = (Ret Sample.entry, 1)
  /\ exists r : WhoisRecord,
       @whois_lookup Sample.collaborators "example.com" Sample.start
       = (Ret (WhoisData r), record_call (CallWhois "example.com") Sample.start 1)
       /\ (exists rest,
              text_str (getattr (e_text Sample.entry) (TextStr "")) = raw r ++ rest)
       /\ String.length (raw r)
          = Nat.min 2000
              (String.length (text_str (getattr (e_text Sample.entry) (TextStr ""))))
       /\ (forall t, e_text Sample.entry = Some (TextStr t) ->
                     String.length t <= 2000 -> raw r = t)
       /\ (e_text Sample.entry = None -> raw r = "")
       /\ (e_text Sample.entry = Some TextNone -> raw r = "None").
Proof.
  split; [reflexivity|].
  apply (@whois_lookup_raw Sample.collaborators "example.com"
           Sample.start Sample.entry 1).
  reflexivity.
Defined.

(** ** Reporter *)

Lemma or_dash_nonempty (x : option string) : or_dash x <> "".
Proof. destruct x as [[|a s]|]; discriminate. Qed.

Lemma or_dash_shows (x : option string) : shows_as x (or_dash x).
Proof.
  split.
  - intros [-> | ->]; reflexivity.
  - intros s -> Hs. destruct s; [contradiction|reflexivity].
Qed.

(** [print_whois] makes one console print and returns: the red panel
    with the error text for an error dict; otherwise the table titled
    with the domain, whose six rows are Registrar, Created, Updated,
    Expires, Name Servers and Status in that order.  The cell of a row
    is a dash when the field is missing or empty, and the field's text
    otherwise; the name servers and the status codes are joined with a
    comma and a space, and an empty joined text shows as a dash too. *)
Theorem print_whois_one_print {C : Collaborators} (w : whois_dict) (st : state) :
  exists (shown : renderable) (st' : state),
    print_whois w st = (Ret tt, st')
    /\ trace st' = (trace st ++ [CallPrint shown])%list
    /\ (forall e, w = WhoisError e ->
                  shown = Panel ("[red]" ++ e ++ "[/red]") "WHOIS" "red")
    /\ (forall r, w = WhoisData r ->
          exists c1 c2 c3 c4 c5 c6 : string,
            shown = Table ("WHOIS: " ++ domain_ r) ["Field"; "Value"]
                      [ ["Registrar"; c1]; ["Created"; c2]; ["Updated"; c3];
                        ["Expires"; c4]; ["Name Servers"; c5]; ["Status"; c6] ]
            /\ shows_as (registrar r) c1
            /\ shows_as (creation_date r) c2
            /\ shows_as (updated_date r) c3
            /\ shows_as (expiration_date r) c4
            /\ shows_as (Some (Str.join ", " (name_servers r))) c5
            /\ shows_as (Some (Str.join ", " (status r))) c6).
Proof.
  exists (whois_view w), (after_print (whois_view w) st).
  split; [apply print_whois_eq|]. split; [reflexivity|]. split.
  - intros e ->. reflexivity.
  - intros r ->. do 6 eexists. split; [reflexivity|].
    repeat split; apply or_dash_shows.
Qed.




(** ** CSV export: the shape of the table *)

Lemma to_csv_rows_eq {C : Collaborators} (data : ReconResult) :
  to_csv_rows data
  = (csv_header :: csv_whois_section (r_whois data)
       ++ flat_map csv_dns_section (r_dns data))%list.
Proof.
  unfold to_csv_rows. rewrite dns_rows_fold, csv_whois_section_eq.
  destruct (r_whois data); reflexivity.
Qed.

Lemma csv_dns_section_width (item : string * list string) :
  Forall (fun row => List.length row = 3) (csv_dns_section item).
Proof.
  destruct item as [rt [|v vals]]; unfold csv_dns_section; cbn [snd fst].
  - repeat constructor.
  - apply Forall_forall. intros row Hin. apply in_map_iff in Hin.
    destruct Hin as (x & <- & _). reflexivity.
Qed.

Lemma csv_dns_section_length (item : string * list string) :
  List.length (csv_dns_section item) = Nat.max 1 (List.length (snd item)).
Proof.
  destruct item as [rt [|v vals]]; unfold csv_dns_section; cbn [snd fst].
  - reflexivity.
  - rewrite length_map. simpl. reflexivity.
Qed.

Lemma dns_sections_length (d : dict (list string)) :
  List.length (flat_map csv_dns_section d) = dns_row_count d.
Proof.
  induction d as [|[rt vals] d IH]; [reflexivity|].
  cbn [flat_map dns_row_count]. rewrite length_app, IH, csv_dns_section_length.
  reflexivity.
Qed.

(** The table that [to_csv] writes is rectangular and leaves no record
    type out: every row has three cells; there are one header row, one
    or seven WHOIS rows and, for each record type, as many rows as it
    has values, or one when it has none; every record type of the dict
    has a row, and every DNS row names a record type of the dict. *)
Theorem to_csv_rows_shape {C : Collaborators} (data : ReconResult) :
  Forall (fun row => List.length row = 3) (to_csv_rows data)
  /\ List.length (to_csv_rows data)
     = 1 + whois_row_count (r_whois data) + dns_row_count (r_dns data)
  /\ (forall rt vals, In (rt, vals) (r_dns data) ->
        exists v, In [Some "DNS"; Some rt; Some v] (to_csv_rows data)
                  /\ (vals = [] -> v = "-")
                  /\ (vals <> [] -> In v vals))
  /\ (forall k v, In [Some "DNS"; Some k; v] (to_csv_rows data) ->
        In k (dict_keys (r_dns data))).
Proof.
  rewrite to_csv_rows_eq. split; [|split; [|split]].
  - constructor; [reflexivity|]. apply Forall_app. split.
    + rewrite csv_whois_section_eq. destruct (r_whois data); repeat constructor.
    + apply Forall_forall. intros row Hin. apply in_flat_map in Hin.
      destruct Hin as (item & _ & Hrow).
      pose proof (csv_dns_section_width item) as Hw.
      rewrite Forall_forall in Hw. now apply Hw.
  - cbn [List.length]. rewrite length_app, dns_sections_length, csv_whois_section_eq.
    destruct (r_whois data); reflexivity.
  - intros rt vals Hin. destruct vals as [|v vals].
    + exists "-". split; [|split; [reflexivity|congruence]].
      right. apply in_or_app. right. apply in_flat_map.
      exists (rt, []). split; [exact Hin|left; reflexivity].
    + exists v. split; [|split; [discriminate|intros _; left; reflexivity]].
      right. apply in_or_app. right. apply in_flat_map.
      exists (rt, v :: vals). split; [exact Hin|left; reflexivity].
  - intros k v [Hin|Hin]; [discriminate Hin|].
    apply in_app_or in Hin. destruct Hin as [Hin|Hin].
    + rewrite csv_whois_section_eq in Hin.
      destruct (r_whois data); simpl in Hin;
        repeat (destruct Hin as [Hin|Hin]; [discriminate Hin|]); contradiction.
    + apply in_flat_map in Hin. destruct Hin as ([rt vals] & Hitem & Hrow).
      assert (Hk : k = rt).
      { unfold csv_dns_section in Hrow. cbn [fst snd] in Hrow.
        destruct vals as [|x vals].
        - destruct Hrow as [Hrow|[]]. now injection Hrow.
        - apply in_map_iff in Hrow. destruct Hrow as (y & Hrow & _).
          now injection Hrow. }
      subst k. unfold dict_keys. apply in_map_iff. exists (rt, vals). auto.
Qed.

(** ** Gathering: failures leave no hints *)

(** The list that stands for a failed query holds no SPF and no DMARC
    record. *)
Lemma failure_marker_no_hint (e : exc) :
  filter is_spf (dns_outcome (Raise e)) = []
  /\ filter is_dmarc (dns_outcome (Raise e)) = [].
Proof.
  unfold dns_outcome.
  destruct (isinstance e NXDOMAIN); [split; reflexivity|].
  destruct (isinstance e NoAnswer); split; reflexivity.
Qed.

(** When the TXT query fails, the SPF list is empty, and when the
    query at [_dmarc.<domain>] fails, the DMARC list is empty: the
    NXDOMAIN and "DNS error: ..." entries that stand for a failure are
    never taken for a record. *)
Theorem gather_dns_failure_no_hints {C : Collaborators} (domain : string) (st : state) :
  resolver_contract ->
  exists (records : dict (list string)) (st' : state),
    gather_dns domain st = (Ret records, st')
    /\ (forall e,
          fst (dns_resolver_resolve domain "TXT"
                 (world (after_queries domain ["A"; "AAAA"; "MX"] st))) = Raise e ->
          dict_get records "SPF" = Some []
          /\ dict_get records "TXT" = Some (dns_outcome (Raise e)))
    /\ (forall e,
          fst (dns_resolver_resolve ("_dmarc." ++ domain) "TXT"
                 (world (after_queries domain base_types st))) = Raise e ->
          dict_get records "DMARC" = Some []).
Proof.
  intros Hc. eexists. eexists. split; [apply gather_dns_eq; exact Hc|].
  cbn [base_records base_types app dict_get String.eqb Ascii.eqb Bool.eqb].
  split.
  - intros e He. unfold dns_answer.
    change (after_resolve domain "MX"
              (after_resolve domain "AAAA" (after_resolve domain "A" st)))
      with (after_queries domain ["A"; "AAAA"; "MX"] st).
    rewrite He. split; [|reflexivity].
    f_equal. apply failure_marker_no_hint.
  - intros e He. unfold dns_answer. rewrite He.
    f_equal. apply failure_marker_no_hint.
Qed.

Lemma gather_dns_failure_no_hints_witness :
  @resolver_contract Sample.collaborators
  /\ exists (records : dict (list string)) (st' : @state Sample.collaborators),
       gather_dns "nope.example" Sample.start = (Ret records, st')
       /\ (forall e,
             fst (dns_resolver_resolve "nope.example" "TXT"
                    (world (after_queries "nope.example" ["A"; "AAAA"; "MX"]
                              Sample.start))) = Raise e ->
             dict_get records "SPF" = Some []
             /\ dict_get records "TXT" = Some (dns_outcome (Raise e)))
       /\ (forall e,
             fst (dns_resolver_resolve ("_dmarc." ++ "nope.example") "TXT"
                    (world (after_queries "nope.example" base_types Sample.start)))
             = Raise e ->
             dict_get records "DMARC" = Some []).
Proof.
  split; [exact sample_resolver_contract|].
  apply (@gather_dns_failure_no_hints Sample.collaborators "nope.example" Sample.start).
  exact sample_resolver_contract.
Defined.

(** ** The run as a whole *)

Section RunCalls.

Context {C : Collaborators}.




End RunCalls.





(** What [run] does up to the WHOIS lookup. *)
Lemma run_prologue {C : Collaborators}
    (domain : string) (out : option string) (fmt : string) (st : state) :
  run domain out fmt st
  = bind (whois_lookup domain)
         (fun w =>
            bind (gather_dns domain)
                 (fun d =>
                    bind (print_whois w)
                         (fun _ =>
                            bind (print_dns d domain)
                                 (fun _ =>
                                    bind call_utcnow
                                         (fun stamp =>
                                            export
                                              {| r_domain := domain; r_whois := w;
                                                 r_dns := d;
                                                 r_timestamp_utc := isoformat stamp |}
                                              out fmt)))))
         (state_looked_up domain st).
Proof.
  unfold run. unfold bind at 1. rewrite call_utcnow_eq.
  unfold bind at 1. reflexivity.
Qed.

(** An exception of the WHOIS client that is not an [Exception] ends
    the run at once: [run] raises it, no DNS query is made and nothing
    but the banner is printed. *)
Theorem run_interrupted_at_whois {C : Collaborators}
    (domain : string) (out : option string) (fmt : string) (st : state)
    (e : exc) (w' : World) :
  whois_whois domain (world (state_looked_up domain st)) = (Raise e, w') ->
  isinstance e Exception = false ->
  exists st' : state,
    run domain out fmt st = (Raise e, st')
    /\ trace st'
       = (trace st
          ++ [ CallUtcnow;
               CallPrint (banner domain (fst (datetime_utcnow (world st))));
               CallWhois domain ])%list.
Proof.
  intros Hw He. eexists. split.
  - rewrite run_prologue. apply bind_raises.
    apply whois_lookup_propagates; eassumption.
  - unfold state_looked_up, after_print, after_utcnow.
    cbn [record_call trace]. rewrite <- !app_assoc. reflexivity.
Qed.

Lemma run_interrupted_at_whois_witness :
  @whois_whois Faulty.interrupted "example.com"
    (world (@state_looked_up Faulty.interrupted "example.com"
              (@mk_state Faulty.interrupted 0 [])))
    = (Raise Faulty.interrupt, 3)
  /\ isinstance Faulty.interrupt Exception = false
  /\ exists st' : @state Faulty.interrupted,
       run "example.com" (Some "out.json") "json" (@mk_state Faulty.interrupted 0 [])
       = (Raise Faulty.interrupt, st')
       /\ trace st'
          = (trace (@mk_state Faulty.interrupted 0 [])
             ++ [ CallUtcnow;
                  CallPrint
                    (banner "example.com"
                       (fst (@datetime_utcnow Faulty.interrupted
                               (world (@mk_state Faulty.interrupted 0 [])))));
                  CallWhois "example.com" ])%list.
Proof.
  split; [reflexivity|]. split; [reflexivity|].
  apply (@run_interrupted_at_whois Faulty.interrupted "example.com" (Some "out.json")
           "json" (@mk_state Faulty.interrupted 0 []) Faulty.interrupt 3);
    reflexivity.
Defined.

(** The WHOIS result is printed only after the DNS records have been
    gathered: when the first resolver call raises an exception outside
    the [DNSException] family, [run] raises it straight after that
    call, and the WHOIS dict it had already obtained is not shown. *)
Theorem run_aborted_at_first_query {C : Collaborators}
    (domain : string) (out : option string) (fmt : string) (st : state)
    (e : exc) (w' : World) :
  whois_contract ->
  dns_resolver_resolve domain "A"
    (world (after_whois domain (state_looked_up domain st))) = (Raise e, w') ->
  isinstance e DNSException = false ->
  exists st' : state,
    run domain out fmt st = (Raise e, st')
    /\ trace st'
       = (trace st
          ++ [ CallUtcnow;
               CallPrint (banner domain (fst (datetime_utcnow (world st))));
               CallWhois domain; CallResolve domain "A" ])%list.
Proof.
  intros Hc Hr He. eexists. split.
  - rewrite run_prologue.
    erewrite bind_returns; [|apply whois_lookup_eq; exact Hc].
    apply bind_raises. unfold gather_dns. cbn [for_each].
    apply bind_raises. apply bind_raises. apply bind_raises.
    apply dns_query_propagates; eassumption.
  - unfold state_looked_up, after_whois, after_print, after_utcnow.
    cbn [record_call trace]. rewrite <- !app_assoc. reflexivity.
Qed.

Lemma faulty_whois_contract : @whois_contract Faulty.unreachable.
Proof.
  intros domain w w' e. simpl. unfold Sample.whois.
  destruct (String.eqb domain "example.com"); intros H; [discriminate H|].
  injection H as He _. subst e. reflexivity.
Defined.

Lemma run_aborted_at_first_query_witness :
  @whois_contract Faulty.unreachable
  /\ @dns_resolver_resolve Faulty.unreachable "example.com" "A"
       (world (@after_whois Faulty.unreachable "example.com"
                 (@state_looked_up Faulty.unreachable "example.com"
                    (@mk_state Faulty.unreachable 0 []))))
     = (Raise Faulty.os_error, 4)
  /\ isinstance Faulty.os_error DNSException = false
  /\ exists st' : @state Faulty.unreachable,
       run "example.com" None "json" (@mk_state Faulty.unreachable 0 [])
       = (Raise Faulty.os_error, st')
       /\ trace st'
          = (trace (@mk_state Faulty.unreachable 0 [])
             ++ [ CallUtcnow;
                  CallPrint
                    (banner "example.com"
                       (fst (@datetime_utcnow Faulty.unreachable
                               (world (@mk_state Faulty.unreachable 0 [])))));
                  CallWhois "example.com"; CallResolve "example.com" "A" ])%list.
Proof.
  split; [exact faulty_whois_contract|]. split; [reflexivity|].
  split; [reflexivity|].
  apply (@run_aborted_at_first_query Faulty.unreachable "example.com" None "json"
           (@mk_state Faulty.unreachable 0 []) Faulty.os_error 4
           faulty_whois_contract);
    reflexivity.
Defined.





(** ** No retry, and the table of a run *)

(** Neither lookup retries: whatever the collaborator answers (a value,
    a caught exception or one that goes through), [whois_lookup] has
    called the WHOIS client once and [dns_query] has called the resolver
    once, and neither has made any other call. *)
Theorem lookups_call_once {C : Collaborators} (domain rtype : string) (st : state) :
  trace (snd (whois_lookup domain st)) = (trace st ++ [CallWhois domain])%list
  /\ trace (snd (dns_query domain rtype st))
     = (trace st ++ [CallResolve domain rtype])%list.
Proof.
  split.
  - unfold whois_lookup, bind, try_except, call_whois.
    destruct (whois_whois domain (world st)) as [[w|e] w']; cbn [ret dispatch].
    + rewrite !fmt_date_eq. reflexivity.
    + destruct (isinstance e Exception); reflexivity.
  - unfold dns_query, bind, try_except, call_resolve.
    destruct (dns_resolver_resolve domain rtype (world st)) as [[l|e] w'];
      cbn [ret dispatch]; [reflexivity|].
    destruct (isinstance e NXDOMAIN); [reflexivity|].
    destruct (isinstance e NoAnswer); [reflexivity|].
    destruct (isinstance e DNSException); reflexivity.
Qed.

(** The DNS table of a gathered dict has exactly the six rows A, AAAA,
    MX, TXT, NS, CNAME, in that order: the derived SPF and DMARC lists
    are left to their panels, and a failed query keeps its row, showing
    the entry that stands for the failure. *)
Theorem gathered_table_rows {C : Collaborators}
    (domain : string) (st st' : state) (d : dict (list string)) :
  resolver_contract ->
  gather_dns domain st = (Ret d, st') ->
  map row_label (dns_table_rows d) = base_types
  /\ (forall e,
        fst (dns_resolver_resolve domain "A" (world st)) = Raise e ->
        isinstance e NXDOMAIN = true ->
        In ["A"; "NXDOMAIN"] (dns_table_rows d)).
Proof.
  intros Hc Hg. rewrite gather_dns_eq in Hg by exact Hc.
  injection Hg as Hd _. subst d. split; [reflexivity|].
  intros e He Hnx. left.
  cbn [base_records base_types]. unfold dns_answer. rewrite He.
  cbn [dns_outcome]. rewrite Hnx. reflexivity.
Qed.

Lemma gathered_table_rows_witness :
  @resolver_contract Sample.collaborators
  /\ gather_dns "nope.example" Sample.start
     = (Ret (gathered "nope.example" Sample.start),
        after_gather "nope.example" Sample.start)
  /\ map row_label (dns_table_rows (gathered "nope.example" Sample.start)) = base_types
  /\ (forall e,
        fst (@dns_resolver_resolve Sample.collaborators "nope.example" "A"
               (world Sample.start)) = Raise e ->
        isinstance e NXDOMAIN = true ->
        In ["A"; "NXDOMAIN"] (dns_table_rows (gathered "nope.example" Sample.start))).
Proof.
  split; [exact sample_resolver_contract|].
  split; [reflexivity|].
  apply (@gathered_table_rows Sample.collaborators "nope.example" Sample.start
           (after_gather "nope.example" Sample.start)
           (gathered "nope.example" Sample.start) sample_resolver_contract).
  reflexivity.
Defined.
